(** * Wikimapia scraper: a shallow embedding of [utilities/scraping.py]

    The development follows the Python module top to bottom:
    - Python strings and the two [str] methods the scraper calls
      ([split] and [strip]);
    - the BeautifulSoup tree the getters navigate ([find], [find_all],
      [get_text], [.string], [nextSibling], attribute access);
    - Python values (the dictionaries handed to [dumps] and to MongoDB);
    - the link collector, [HTMLGeoScraper] and [APIGeoScraper];
    - the theorems about them. *)

From Stdlib Require Import String Ascii ZArith List Bool Lia.
From stdpp Require Import base option list gmap strings.

Import ListNotations.
Set Warnings "-register-all,-clear-no-such-hyp".
Local Open Scope string_scope.
Local Open Scope list_scope.

(** ** Exceptions and the error monad

    Python exceptions are values of [exn]; a computation that may raise
    returns [result A].  A bare [except:] clause is [try_except]. *)

Inductive exn : Type :=
| AttributeError
| IndexError
| KeyError
| TypeError
| JSONDecodeError
| Exception (msg : string).

Inductive result (A : Type) : Type :=
| Return (a : A)
| Raise (e : exn).

Arguments Return {A} a.
Arguments Raise {A} e.

#[global] Instance result_ret : MRet result := fun A a => Return a.

#[global] Instance result_bind : MBind result := fun A B k m =>
  match m with
  | Return a => k a
  | Raise e => Raise e
  end.

(** [try: m  except: handler] with a bare [except]. *)
Definition try_except {A : Type} (m : result A) (handler : A) : A :=
  match m with
  | Return a => a
  | Raise _ => handler
  end.

(** A list comprehension whose element expression may raise. *)
Fixpoint comprehension {A B : Type} (f : A -> result B) (l : list A)
  : result (list B) :=
  match l with
  | [] => Return []
  | a :: l' =>
      b ← f a;
      bs ← comprehension f l';
      Return (b :: bs)
  end.

(** ** Python strings

    A [str] is a [string]; a character is a code point below 256.
    [isspace] is [str.isspace] on those code points: TAB, LF, VT, FF, CR,
    the four separators FS, GS, RS, US, the space, NEL and the no-break
    space. *)

Module Str.

Definition isspace (c : ascii) : bool :=
  let n := nat_of_ascii c in
  ((9 <=? n) && (n <=? 13) || (28 <=? n) && (n <=? 32)
   || (n =? 133) || (n =? 160))%nat.

Definition to_list (s : string) : list ascii := list_ascii_of_string s.
Definition of_list (l : list ascii) : string := string_of_list_ascii l.

(** [s.split()]: maximal runs of non-space characters, in order.  [cur]
    holds the run being read, reversed. *)
Fixpoint split_ws_aux (cur : list ascii) (l : list ascii) : list string :=
  match l with
  | [] =>
      match cur with
      | [] => []
      | _ :: _ => [of_list (rev cur)]
      end
  | c :: l' =>
      if isspace c then
        match cur with
        | [] => split_ws_aux [] l'
        | _ :: _ => of_list (rev cur) :: split_ws_aux [] l'
        end
      else split_ws_aux (c :: cur) l'
  end.

Definition split (s : string) : list string :=
  split_ws_aux [] (to_list s).

(** [s.split(sep)] for a one-character separator: every occurrence cuts,
    so the result has one more piece than there are separators. *)
Fixpoint split_on_aux (sep : ascii) (cur : list ascii) (l : list ascii)
  : list string :=
  match l with
  | [] => [of_list (rev cur)]
  | c :: l' =>
      if Ascii.eqb c sep then of_list (rev cur) :: split_on_aux sep [] l'
      else split_on_aux sep (c :: cur) l'
  end.

Definition split_on (sep : ascii) (s : string) : list string :=
  split_on_aux sep [] (to_list s).

Fixpoint lstrip_list (l : list ascii) : list ascii :=
  match l with
  | [] => []
  | c :: l' => if isspace c then lstrip_list l' else l
  end.

(** [s.strip()]. *)
Definition strip (s : string) : string :=
  of_list (rev (lstrip_list (rev (lstrip_list (to_list s))))).

(** [''.join(parts)]. *)
Definition join (parts : list string) : string :=
  fold_right String.append EmptyString parts.

(** [needle in s], which is also what [re.compile(needle).search(s)]
    decides when [needle] has no regular-expression metacharacter. *)
Fixpoint contains (needle s : string) : bool :=
  String.prefix needle s ||
  match s with
  | EmptyString => false
  | String _ s' => contains needle s'
  end.

End Str.

(** ** The BeautifulSoup tree

    A node is a [NavigableString] or a [Tag] with its name, attributes and
    contents.  The [BeautifulSoup] object itself is a [Tag] (named
    [[document]]) whose contents are the top-level nodes. *)

Inductive node : Type :=
| NavigableString (s : string)
| Tag (name : string) (attrs : gmap string string) (contents : list node).

Module Soup.

Definition document (contents : list node) : node :=
  Tag "[document]" ∅ contents.

Definition is_tag (n : node) : bool :=
  match n with
  | Tag _ _ _ => true
  | NavigableString _ => false
  end.

Definition name_is (nm : string) (n : node) : bool :=
  match n with
  | Tag nm' _ _ => String.eqb nm' nm
  | NavigableString _ => false
  end.

Definition attr (k : string) (n : node) : option string :=
  match n with
  | Tag _ a _ => a !! k
  | NavigableString _ => None
  end.

Definition has_attr (k : string) (n : node) : bool :=
  bool_decide (is_Some (attr k n)).

Definition attr_is (k v : string) (n : node) : bool :=
  bool_decide (attr k n = Some v).

(** The nodes below a list of siblings in document order, each with its
    [nextSibling]. *)
Fixpoint below (n : node) : list (node * option node) :=
  match n with
  | NavigableString _ => []
  | Tag _ _ cs =>
      (fix siblings (l : list node) : list (node * option node) :=
         match l with
         | [] => []
         | c :: l' => (c, head l') :: below c ++ siblings l'
         end) cs
  end.

Definition descendants (n : node) : list node := map fst (below n).

(** [tag.get_text()] and [tag.text]: the strings below the tag, joined. *)
Definition string_of (n : node) : option string :=
  match n with
  | NavigableString s => Some s
  | Tag _ _ _ => None
  end.

Definition get_text (n : node) : string :=
  Str.join (omap string_of (descendants n)).

(** [tag.string]: the only string of a tag that holds a single string,
    looking through single-child tags. *)
Fixpoint the_string (n : node) : option string :=
  match n with
  | NavigableString s => Some s
  | Tag _ _ [c] => the_string c
  | Tag _ _ _ => None
  end.

(** [tag.find_all(...)] and [tag.find(...)] for a test [p] on tags. *)
Definition find_all (p : node -> bool) (n : node) : list node :=
  List.filter (fun c => is_tag c && p c) (descendants n).

Definition find (p : node -> bool) (n : node) : option node :=
  head (find_all p n).

(** [tag.find(...)] keeping the [nextSibling] of what it finds. *)
Definition find_with_sibling (p : node -> bool) (n : node)
  : option (node * option node) :=
  head (List.filter (fun c => is_tag c.1 && p c.1) (below n)).

End Soup.

(** ** Python values *)

Inductive value : Type :=
| VNone
| VBool (b : bool)
| VInt (z : Z)
| VFloat (literal : string)
| VStr (s : string)
| VList (l : list value)
| VDict (d : gmap string value)
| VTag (t : node).

(** A dictionary display [{k1: v1, ...}] with distinct keys. *)
Definition dict (items : list (string * value)) : value :=
  VDict (list_to_map items).

Definition strs (l : list string) : value := VList (map VStr l).

(** [d.keys()] of a dictionary, and [x.get(key)]: a dictionary and a tag
    have it, and give [None] for a key they do not hold. *)
Definition keys (v : value) : gset string :=
  match v with
  | VDict d => dom d
  | _ => ∅
  end.

Definition get (key : string) (v : value) : option value :=
  match v with
  | VDict d => d !! key
  | VTag t => VStr <$> Soup.attr key t
  | _ => None
  end.

Definition is_dict (v : value) : Prop := exists d, v = VDict d.

(** [l[i]] on a list. *)
Definition list_getitem {A : Type} (l : list A) (i : nat) : result A :=
  match l !! i with
  | Some a => Return a
  | None => Raise IndexError
  end.

(** [v[key]] for a string key: a dictionary looks the key up, a tag looks
    its attribute up, any other value refuses the subscript. *)
Definition getitem (v : value) (key : string) : result value :=
  match v with
  | VDict d =>
      match d !! key with
      | Some x => Return x
      | None => Raise KeyError
      end
  | VTag t =>
      match Soup.attr key t with
      | Some x => Return (VStr x)
      | None => Raise KeyError
      end
  | _ => Raise TypeError
  end.

(** [tag[key]]. *)
Definition tag_getitem (t : node) (key : string) : result string :=
  match Soup.attr key t with
  | Some x => Return x
  | None => Raise KeyError
  end.

(** Attribute access on what [find] returned: [None] has no attributes. *)
Definition on_found {A B : Type} (found : option A) (f : A -> B) : result B :=
  match found with
  | Some t => Return (f t)
  | None => Raise AttributeError
  end.

(** [x.split()] where [x] is what [nextSibling] gave.  On a string it is
    [str.split].  A tag has no [split] method: [tag.split] is
    [tag.find('split')], and calling a tag is [find_all()] on it, so the
    call raises unless the tag holds a [split] element. *)
Definition sibling_split (sibling : option node) : result value :=
  match sibling with
  | None => Raise AttributeError
  | Some (NavigableString s) => Return (strs (Str.split s))
  | Some (Tag _ _ _ as t) =>
      match Soup.find (Soup.name_is "split") t with
      | None => Raise TypeError
      | Some t' => Return (VList (map VTag (Soup.find_all (fun _ => true) t')))
      end
  end.

(** A sibling [x] on which [x.split()] raises: there is none, or it is a
    tag that holds no [split] element. *)
Definition malformed_sibling (sibling : option node) : bool :=
  match sibling with
  | None => true
  | Some (NavigableString _) => false
  | Some (Tag _ _ _ as t) =>
      negb (bool_decide (is_Some (Soup.find (Soup.name_is "split") t)))
  end.

(** ** The outside world

    What the module reaches through [requests], [bs4], [json], [open],
    [print], [datetime] and [pymongo]. *)

Record Response : Type := { status_code : Z; text : string }.

Inductive SoupStrainer : Type :=
| Strainer (name : string) (attr_key attr_value : string).

Record world : Type := {
  now : string;                 (* str(datetime.datetime.now()) *)
  stdout : list string;         (* lines printed *)
  files : gmap string string;   (* file name -> contents *)
  mongo : gmap (string * string * string) (list value)
                                (* (connection, db, collection) -> documents *)
}.

Definition print (line : string) (w : world) : world :=
  {| now := now w; stdout := stdout w ++ [line];
     files := files w; mongo := mongo w |}.

(** [open(path, 'a')]: the file exists afterwards. *)
Definition open_append (path : string) (w : world) : world :=
  {| now := now w; stdout := stdout w;
     files := <[path := default EmptyString (files w !! path)]> (files w);
     mongo := mongo w |}.

Definition file_write (path data : string) (w : world) : world :=
  {| now := now w; stdout := stdout w;
     files := <[path := String.append (default EmptyString (files w !! path)) data]>
                (files w);
     mongo := mongo w |}.

Definition insert_one (target : string * string * string) (doc : value)
    (w : world) : world :=
  {| now := now w; stdout := stdout w; files := files w;
     mongo := <[target := default [] (mongo w !! target) ++ [doc]]> (mongo w) |}.

(** [db_connect]: the handle of the collection. *)
Definition db_connect (connection_string db collection : string)
  : string * string * string :=
  (connection_string, db, collection).

Definition newline : string := String "010" EmptyString.

(** ** [utilities/scraping.py] *)

Section Links.

(** [requests.get] and the [BeautifulSoup(markup, 'lxml',
    parse_only=strainer)] constructor. *)
Variable requests_get : string -> Response.
Variable bs : string -> SoupStrainer -> node.

Definition check_last_page (url : string) (w : world) : option string * world :=
  let res := requests_get url in
  if negb (status_code res =? 200)%Z then
    (None,
     print (now w ++ " ERROR: Not status code 200 for " ++ url
            ++ ", did you type a country name correctly?")%string w)
  else (Some (text res), w).

(** The truth value of what [check_last_page] returned: [None] and the
    empty string are false. *)
Definition truthy (page_html : option string) : bool :=
  match page_html with
  | None => false
  | Some EmptyString => false
  | Some (String _ _) => true
  end.

(** [find_all('a', attrs={'href': True, 'data-url': False})]. *)
Definition is_link (t : node) : bool :=
  Soup.name_is "a" t && Soup.has_attr "href" t
  && negb (Soup.has_attr "data-url" t).

Definition links_of (html_object : node) : result (list string) :=
  comprehension (fun a => tag_getitem a "href")
    (Soup.find_all is_link html_object).

Definition get_wikimapia_links_from_html (url_parts : list string) (w : world)
  : result (option (list string)) * world :=
  let link := Str.join url_parts in
  let '(page_html, w) := check_last_page link w in
  if negb (truthy page_html) then (Return None, w)
  else
    let parse_only := Strainer "div" "class" "span3" in
    let html_object := bs (default EmptyString page_html) parse_only in
    (links ← links_of html_object; Return (Some links), w).

End Links.

Definition scrape_error (url : string) (w : world) : exn :=
  Exception (now w ++ " ERROR: GeoScraper couldn't scrape " ++ url)%string.

Module HTMLGeoScraper.

Record t : Type := { html : string }.

(** The test of [find('b', text=re.compile('Coordinates'))]: a [b] tag
    whose [.string] the pattern is found in. *)
Definition is_coordinates_label (b : node) : bool :=
  Soup.name_is "b" b
  && from_option (Str.contains "Coordinates") false (Soup.the_string b).

Definition get_geometry (html_object : node) : value :=
  let coordinates :=
    try_except
      (sibling ← on_found
         (Soup.find_with_sibling is_coordinates_label html_object) snd;
       sibling_split sibling)
      (VList []) in
  dict [("type", VStr "Point"); ("coordinates", coordinates)].

Definition get_title (html_object : node) : value :=
  let title :=
    try_except
      (h1 ← on_found (Soup.find (Soup.name_is "h1") html_object)
              Soup.get_text;
       Return (VStr h1))
      VNone in
  dict [("title", title)].

Definition get_location (html_object : node) : result value :=
  text ← on_found (Soup.find (Soup.name_is "address") html_object)
           Soup.get_text;
  let address := Str.split text in
  country ← list_getitem address 0;
  state ← list_getitem address 2;
  place ← list_getitem address 4;
  Return (dict [("country", VStr country); ("state", VStr state);
                ("place", VStr place)]).

Definition is_div_with_id (id : string) (t : node) : bool :=
  Soup.name_is "div" t && Soup.attr_is "id" id t.

Definition get_description (html_object : node) : value :=
  let description := Soup.find (is_div_with_id "place-description") html_object in
  match description with
  | Some d => dict [("description", VStr (Str.strip (Soup.get_text d)))]
  | None => dict [("description", VNone)]
  end.

Definition nearby_place (place : node) : result value :=
  name ← on_found (Soup.find (Soup.name_is "a") place) Soup.get_text;
  distance ← on_found (Soup.find (Soup.name_is "span") place) Soup.get_text;
  Return (dict [("name", VStr name); ("distance", VStr distance)]).

Definition get_nearby_places (html_object : node) : result value :=
  let nearby_places := Soup.find (is_div_with_id "nearby-places") html_object in
  items ← on_found nearby_places (Soup.find_all (Soup.name_is "li"));
  nearby_places_list ← comprehension nearby_place items;
  Return (VList nearby_places_list).

Definition get_properties (html_object : node) : result value :=
  let title := get_title html_object in
  location ← get_location html_object;
  let description := get_description html_object in
  nearby_places ← get_nearby_places html_object;
  Return (dict [("title", title); ("location", location);
                ("description", description);
                ("nearestPlaces", nearby_places)]).

Section Instance.

(** The [BeautifulSoup] constructor and [json.dumps]. *)
Variable bs : string -> SoupStrainer -> node.
Variable dumps : value -> result string.

Definition parse_point_to_geoJSON (self : t) : result value :=
  let parse_only := Strainer "div" "id" "page-content" in
  let html_object := bs (html self) parse_only in
  let geometry := get_geometry html_object in
  properties ← get_properties html_object;
  Return (dict [("type", VStr "Feature"); ("geometry", geometry);
                ("properties", properties)]).

Definition __init__ (url : string) (requests_session : string -> Response)
    (w : world) : result t * world :=
  let res := requests_session url in
  if negb (status_code res =? 200)%Z then
    let w := print "Not status code 200." w in
    (Raise (scrape_error url w), w)
  else (Return {| html := text res |}, w).

Definition __call__ (self : t) (mongo_connection_string db collection
    output_file : string) (w : world) : result unit * world :=
  match parse_point_to_geoJSON self with
  | Raise e => (Raise e, w)
  | Return geo_json =>
      let w := open_append output_file w in
      match dumps geo_json with
      | Raise e => (Raise e, w)
      | Return line =>
          let w := file_write output_file (line ++ "," ++ newline)%string w in
          let db_connection := db_connect mongo_connection_string db collection in
          (Return (), insert_one db_connection geo_json w)
      end
  end.

End Instance.

End HTMLGeoScraper.

Module APIGeoScraper.

Record t : Type := { id : string; json : value }.

Definition api_url (id : string) : string :=
  ("http://api.wikimapia.org/?key=example&function=place.getbyid&id=" ++ id
   ++ "&format=json&pack=&language=en&data_blocks=main%2Cgeometry%2Ccomments%2Clocation%2Cnearest_places%2Cnearest_comments%2Cattached%2C")%string.

Definition get_geometry (self : t) : value :=
  let coordinates := try_except (getitem (json self) "polygon") (VList []) in
  dict [("type", VStr "polygon"); ("coordinates", coordinates)].

Definition get_location (self : t) : value :=
  try_except (getitem (json self) "location") VNone.

Definition get_description (self : t) : value :=
  try_except (getitem (json self) "description") VNone.

Definition get_nearby_places (self : t) : value :=
  try_except (getitem (json self) "nearestPlaces") VNone.

Definition get_title (self : t) : value :=
  try_except (getitem (json self) "title") VNone.

Definition get_properties (self : t) : value :=
  let title := get_title self in
  let location := get_location self in
  let description := get_description self in
  let nearby_places := get_nearby_places self in
  dict [("title", title); ("location", location);
        ("description", description); ("nearestPlaces", nearby_places)].

Definition parse_point_to_geoJSON (self : t) : value :=
  let geometry := get_geometry self in
  let properties := get_properties self in
  dict [("type", VStr "Feature"); ("geometry", geometry);
        ("properties", properties)].

Section Instance.

(** [json.loads] and [json.dumps]. *)
Variable loads : string -> result value.
Variable dumps : value -> result string.

Definition __init__ (url : string) (requests_session : string -> Response)
    (w : world) : result t * world :=
  match list_getitem (Str.split_on "/" url) 3 with
  | Raise e => (Raise e, w)
  | Return id =>
      let res := requests_session (api_url id) in
      if negb (status_code res =? 200)%Z then
        let w := print "Not status code 200." w in
        (Raise (scrape_error url w), w)
      else
        match loads (text res) with
        | Raise e => (Raise e, w)
        | Return parsed => (Return {| id := id; json := parsed |}, w)
        end
  end.

Definition __call__ (self : t) (mongo_connection_string db collection
    output_file : string) (w : world) : result unit * world :=
  let geo_json := parse_point_to_geoJSON self in
  let w := open_append output_file w in
  match dumps geo_json with
  | Raise e => (Raise e, w)
  | Return line =>
      let w := file_write output_file (line ++ "," ++ newline)%string w in
      let db_connection := db_connect mongo_connection_string db collection in
      (Return (), insert_one db_connection geo_json w)
  end.

End Instance.

End APIGeoScraper.

(** Running a constructed scraper: what the caller does with the object
    [__init__] hands back. *)
Definition and_then {A B : Type} (m : result A * world)
    (k : A -> world -> result B * world) : result B * world :=
  match m with
  | (Return a, w) => k a w
  | (Raise e, w) => (Raise e, w)
  end.

(** ** Either scraper

    The caller holds an [HTMLGeoScraper] or an [APIGeoScraper] and calls
    [parse_point_to_geoJSON] on it. *)

Inductive GeoScraper : Type :=
| OfHTML (self : HTMLGeoScraper.t)
| OfAPI (self : APIGeoScraper.t).

Definition parse_point_to_geoJSON (bs : string -> SoupStrainer -> node)
    (scraper : GeoScraper) : result value :=
  match scraper with
  | OfHTML self => HTMLGeoScraper.parse_point_to_geoJSON bs self
  | OfAPI self => Return (APIGeoScraper.parse_point_to_geoJSON self)
  end.

(** ** Vocabulary of the theorems *)

(** What one list item contributes: the text of its first link and of its
    first [span]. *)
Definition paired (place : node) (pair : value) : Prop :=
  exists a span,
    Soup.find (Soup.name_is "a") place = Some a
    /\ Soup.find (Soup.name_is "span") place = Some span
    /\ pair = dict [("name", VStr (Soup.get_text a));
                    ("distance", VStr (Soup.get_text span))].

Definition complete (place : node) : Prop :=
  is_Some (Soup.find (Soup.name_is "a") place)
  /\ is_Some (Soup.find (Soup.name_is "span") place).

(** The anchors of a listing that carry an [href], and the marker that
    excludes some of them. *)
Definition is_anchor_with_href (t : node) : bool :=
  Soup.name_is "a" t && Soup.has_attr "href" t.

Definition marked (t : node) : bool := Soup.has_attr "data-url" t.

Definition unmarked (t : node) : bool := negb (marked t).

Definition href_of (a : node) (link : string) : Prop :=
  Soup.attr "href" a = Some link.

(** A name written as one word: not empty and free of white space. *)
Definition is_word (s : string) : bool :=
  match Str.to_list s with
  | [] => false
  | _ :: _ => forallb (fun c => negb (Str.isspace c)) (Str.to_list s)
  end.

(** The layout the address block is expected in. *)
Definition three_part_address (country state place : string) : string :=
  (country ++ " , " ++ state ++ " , " ++ place)%string.

(** ** Inputs the theorems are run on *)

Definition bare_response : APIGeoScraper.t :=
  {| APIGeoScraper.id := "12345";
     APIGeoScraper.json := dict [("id", VInt 12345)] |}.


(** A detail page with only an address and an empty nearby-places block:
    no heading, no coordinates, no description. *)
Definition sparse_page : node :=
  Soup.document
    [Tag "div" {["id" := "page-content"]}
       [Tag "address" ∅ [NavigableString "Israel , Haifa , Haifa"];
        Tag "div" {["id" := "nearby-places"]} [Tag "ul" ∅ []]]].

(** A detail page with every block the getters look for. *)
Definition full_page : node :=
  Soup.document
    [Tag "div" {["id" := "page-content"]}
       [Tag "h1" ∅ [NavigableString "Azrieli Center"];
        Tag "address" ∅
          [NavigableString "Israel , Tel Aviv District , Tel Aviv"];
        Tag "b" ∅ [NavigableString "Coordinates:"];
        NavigableString " 32.0745 34.7919 ";
        Tag "div" {["id" := "place-description"]}
          [NavigableString "  A shopping mall. "];
        Tag "div" {["id" := "nearby-places"]}
          [Tag "ul" ∅
             [Tag "li" ∅
                [Tag "a" {["href" := "/1"]} [NavigableString "Sarona"];
                 NavigableString " ";
                 Tag "span" ∅ [NavigableString "0.5 km"]];
              Tag "li" ∅
                [Tag "a" {["href" := "/2"]} [NavigableString "Kirya"];
                 NavigableString " ";
                 Tag "span" ∅ [NavigableString "0.7 km"]]]]]].

Definition serve (page : node) : string -> SoupStrainer -> node :=
  fun _ _ => page.

Definition fetched : HTMLGeoScraper.t := {| HTMLGeoScraper.html := "<html>" |}.

Definition not_found : Response := {| status_code := 404; text := "Not Found" |}.

Definition empty_ok : Response := {| status_code := 200; text := EmptyString |}.

Definition quiet : world :=
  {| now := "2021-03-01 12:00:00.000000"; stdout := []; files := ∅; mongo := ∅ |}.

(** A page whose coordinates label is followed by a line break instead of
    the coordinates. *)
Definition broken_coordinates_page : node :=
  Soup.document
    [Tag "div" {["id" := "page-content"]}
       [Tag "b" ∅ [NavigableString "Coordinates:"];
        Tag "br" ∅ [];
        NavigableString " 32.0745 34.7919 "]].

(** A page whose address names the country only. *)
Definition short_address_page : node :=
  Soup.document
    [Tag "div" {["id" := "page-content"]}
       [Tag "address" ∅ [NavigableString "Israel , Haifa"]]].

(** A page whose address block is empty. *)
Definition empty_address_page : node :=
  Soup.document
    [Tag "div" {["id" := "page-content"]} [Tag "address" ∅ []]].

(** A page whose nearby-places block lists an item that is plain text. *)
Definition plain_item_page : node :=
  Soup.document
    [Tag "div" {["id" := "page-content"]}
       [Tag "div" {["id" := "nearby-places"]}
          [Tag "ul" ∅ [Tag "li" ∅ [NavigableString "No places nearby"]]]]].

(** A listing with three anchors, the second one marked, and a page
    without any. *)
Definition listing : node :=
  Soup.document
    [Tag "div" {["class" := "span3"]}
       [Tag "ul" ∅
          [Tag "li" ∅ [Tag "a" {["href" := "/country/Israel/Haifa/"]}
                         [NavigableString "Haifa"]];
           Tag "li" ∅ [Tag "a" (<["data-url" := "/more"]> {["href" := "#"]})
                         [NavigableString "more"]];
           Tag "li" ∅ [Tag "a" {["href" := "/country/Israel/Eilat/"]}
                         [NavigableString "Eilat"]];
           Tag "li" ∅ [Tag "a" {["name" := "top"]} []]]]].

Definition listing_ok : Response :=
  {| status_code := 200; text := "<html>...</html>" |}.

Definition address_page (address_text : string) : node :=
  Soup.document
    [Tag "div" {["id" := "page-content"]}
       [Tag "address" ∅ [NavigableString address_text]]].

(** A page whose coordinates label is followed by an element that holds a
    [split] element. *)
Definition split_element_page : node :=
  Soup.document
    [Tag "div" {["id" := "page-content"]}
       [Tag "b" ∅ [NavigableString "Coordinates:"];
        Tag "span" ∅ [Tag "split" ∅ [Tag "i" ∅ []]]]].

(** A listing without anchors. *)
Definition bare_listing : node :=
  Soup.document [Tag "div" {["class" := "span3"]} [Tag "ul" ∅ []]].

(** The response of the scenario: a title and nothing else. *)
Definition park_x : APIGeoScraper.t :=
  {| APIGeoScraper.id := "12345";
     APIGeoScraper.json := dict [("title", VStr "Park X")] |}.

(** ** [utilities/mongo.py]

    [db_connect] is above.  The names of the collections of a database
    are the ones the store holds documents under. *)

Definition list_collection_names (connection_string db : string) (w : world)
  : list string :=
  omap (fun entry : string * string * string * list value =>
          let '(c, d, name, _) := entry in
          if bool_decide (c = connection_string /\ d = db) then Some name
          else None)
       (map_to_list (mongo w)).

Definition is_collection (connection_string db collection : string) (w : world)
  : bool :=
  if bool_decide (collection ∈ list_collection_names connection_string db w)
  then true else false.

Section Indexes.

(** A [pymongo] collection and its [create_index(keys,
    expireAfterSeconds=...)], which acts on the server and may raise. *)
Variable Collection : Type.
Variable Server : Type.
Variable create_index :
  Collection -> string -> Z -> Server -> result unit * Server.

Fixpoint create_ttl_in_collections (index_name : string)
    (ttl_interval_in_seconds : Z) (collections : list Collection)
    (s : Server) : result unit * Server :=
  match collections with
  | [] => (Return (), s)
  | collection :: rest =>
      match create_index collection index_name ttl_interval_in_seconds s with
      | (Return _, s') =>
          create_ttl_in_collections index_name ttl_interval_in_seconds rest s'
      | (Raise e, s') => (Raise e, s')
      end
  end.

End Indexes.

(** ** Either scraper, called

    The caller calls the scraper it holds. *)

Definition __call__ (bs : string -> SoupStrainer -> node)
    (dumps : value -> result string) (scraper : GeoScraper)
    (mongo_connection_string db collection output_file : string) (w : world)
  : result unit * world :=
  match scraper with
  | OfHTML self =>
      HTMLGeoScraper.__call__ bs dumps self mongo_connection_string db
        collection output_file w
  | OfAPI self =>
      APIGeoScraper.__call__ dumps self mongo_connection_string db collection
        output_file w
  end.

(** ** Further vocabulary *)

(** How often a character occurs in a string. *)
Definition count_char (c : ascii) (s : string) : nat :=
  length (List.filter (Ascii.eqb c) (Str.to_list s)).

(** A string without white space at either end. *)
Definition trimmed (s : string) : Prop :=
  match Str.to_list s with
  | [] => True
  | c :: l => Str.isspace c = false /\ Str.isspace (List.last l c) = false
  end.

(** The five keys of the response the API scraper reads. *)
Definition api_keys : list string :=
  ["title"; "location"; "description"; "nearestPlaces"; "polygon"].

(** The kind of geometry each scraper reports. *)
Definition geometry_kind (scraper : GeoScraper) : string :=
  match scraper with
  | OfHTML _ => "Point"
  | OfAPI _ => "polygon"
  end.

(** A server on which an index, once created on a collection with one
    expiry, cannot be created again with another. *)
Definition create_index_once (collection index_name : string) (ttl : Z)
    (s : gmap (string * string) Z) : result unit * gmap (string * string) Z :=
  match s !! (collection, index_name) with
  | None => (Return (), <[(collection, index_name) := ttl]> s)
  | Some ttl' =>
      if (ttl' =? ttl)%Z then (Return (), s)
      else (Raise (Exception "IndexOptionsConflict"), s)
  end.

(** ** Further inputs *)

(** The response of [park_x] with keys the scraper does not read. *)
Definition park_x_verbose : APIGeoScraper.t :=
  {| APIGeoScraper.id := "777";
     APIGeoScraper.json :=
       dict [("title", VStr "Park X"); ("id", VInt 777);
             ("url", VStr "http://wikimapia.org/777/Park-X")] |}.

Definition ok_with (body : string) : Response :=
  {| status_code := 200; text := body |}.

(** A [json.loads] that knows one document. *)
Definition loads_park_x (body : string) : result value :=
  if String.eqb body "{title: Park X}" then Return (dict [("title", VStr "Park X")])
  else Raise JSONDecodeError.

(** A page with a heading and coordinates given as blanks only. *)
Definition blank_coordinates_page : node :=
  Soup.document
    [Tag "div" {["id" := "page-content"]}
       [Tag "h1" ∅ [NavigableString " Azrieli "; Tag "small" ∅ [NavigableString "Center"]];
        Tag "b" ∅ [NavigableString "Coordinates:"];
        NavigableString "   "]].

(** A [json.dumps] that refuses tags and writes one fixed line for
    anything else. *)
Definition dumps_stub (v : value) : result string :=
  match get "geometry" v with
  | Some geometry =>
      match get "coordinates" geometry with
      | Some (VList (VTag _ :: _)) => Raise TypeError
      | _ => Return "{...}"
      end
  | None => Return "{...}"
  end.

(** A page from which extraction succeeds, with a tag for coordinates. *)
Definition tag_coordinates_page : node :=
  Soup.document
    [Tag "div" {["id" := "page-content"]}
       [Tag "address" ∅ [NavigableString "Israel , Haifa , Haifa"];
        Tag "b" ∅ [NavigableString "Coordinates:"];
        Tag "span" ∅ [Tag "split" ∅ [Tag "i" ∅ []]];
        Tag "div" {["id" := "nearby-places"]} [Tag "ul" ∅ []]]].

(** A world with a file and a collection that the scraper is not told
    about. *)
Definition busy : world :=
  {| now := "2021-03-01 12:00:00.000000"; stdout := [];
     files := {["notes.txt" := "keep"]};
     mongo := {[("mongodb://db", "geo", "Egypt") := [VStr "kept"]]} |}.

(** A server where the collection [b] already has the index with another
    expiry. *)
Definition indexed_b : gmap (string * string) Z := {[("b", "createdAt") := 60%Z]}.

(** * Theorems *)

(** *** Dictionaries and the error monad *)

Lemma keys_dict3 k1 k2 k3 v1 v2 v3 :
  keys (dict [(k1, v1); (k2, v2); (k3, v3)]) = {[k1; k2; k3]}.
Proof.
  unfold dict, keys. simpl.
  rewrite !dom_insert_L, dom_empty_L. set_solver.
Qed.

Lemma get_dict_head k v items : get k (dict ((k, v) :: items)) = Some v.
Proof. unfold dict, get. simpl. apply lookup_insert_eq. Qed.

Lemma bind_Return_inv {A B} (m : result A) (k : A -> result B) b :
  m ≫= k = Return b -> exists a, m = Return a /\ k a = Return b.
Proof. destruct m as [a|e]; simpl; [eauto | discriminate]. Qed.

(** *** The link collector on a listing *)

Lemma filter_filter_andb {A} (f g : A -> bool) (l : list A) :
  List.filter f (List.filter g l) = List.filter (fun x => g x && f x) l.
Proof.
  induction l as [|x l IH]; simpl; [reflexivity|].
  destruct (g x); simpl; [destruct (f x)|]; rewrite ?IH; reflexivity.
Qed.

Lemma find_all_is_link html_object :
  Soup.find_all is_link html_object
  = List.filter unmarked (Soup.find_all is_anchor_with_href html_object).
Proof.
  unfold Soup.find_all. rewrite filter_filter_andb.
  apply List.filter_ext. intros c.
  unfold is_link, is_anchor_with_href, unmarked, marked.
  rewrite !andb_assoc. reflexivity.
Qed.

Lemma find_all_holds p n : Forall (fun c => p c = true) (Soup.find_all p n).
Proof.
  unfold Soup.find_all. apply List.Forall_forall. intros c Hc.
  apply List.filter_In in Hc as [_ Hc]. apply andb_true_iff in Hc. tauto.
Qed.

Lemma has_attr_true k t : Soup.has_attr k t = true -> is_Some (Soup.attr k t).
Proof. unfold Soup.has_attr. apply bool_decide_eq_true_1. Qed.

Lemma comprehension_cons {A B} (f : A -> result B) a l :
  comprehension f (a :: l)
  = (b ← f a; bs ← comprehension f l; Return (b :: bs)).
Proof. reflexivity. Qed.

Lemma comprehension_hrefs anchors :
  Forall (fun a => is_anchor_with_href a = true) anchors ->
  exists links,
    comprehension (fun a => tag_getitem a "href") anchors = Return links
    /\ Forall2 href_of anchors links.
Proof.
  induction 1 as [|a anchors Ha _ (links & Hlinks & Hall)].
  - exists []. split; [reflexivity | constructor].
  - apply andb_true_iff in Ha as [_ Ha].
    apply has_attr_true in Ha as [link Hlink].
    exists (link :: links). split; [|constructor; assumption].
    rewrite comprehension_cons, Hlinks.
    unfold tag_getitem. rewrite Hlink. reflexivity.
Qed.

Lemma Forall_filter {A} (P : A -> Prop) (f : A -> bool) (l : list A) :
  Forall P l -> Forall P (List.filter f l).
Proof.
  induction 1 as [|x l Hx _ IH]; simpl; [constructor|].
  destruct (f x); [constructor|]; assumption.
Qed.

Lemma links_of_listing html_object :
  let anchors := Soup.find_all is_anchor_with_href html_object in
  exists links,
    links_of html_object = Return links
    /\ Forall2 href_of (List.filter unmarked anchors) links
    /\ length links = length anchors - length (List.filter marked anchors).
Proof.
  intros anchors. unfold links_of. rewrite find_all_is_link. fold anchors.
  destruct (comprehension_hrefs (List.filter unmarked anchors))
    as (links & Hlinks & Hall).
  { apply Forall_filter, find_all_holds. }
  exists links. split; [assumption|]. split; [assumption|].
  rewrite <- (Forall2_length _ _ _ Hall).
  pose proof (List.filter_length marked anchors) as Hlen.
  unfold unmarked. simpl in Hlen. lia.
Qed.

(** C8: on a listing fetched with status 200 and a body that is not empty,
    the collector returns the [href] of every anchor that has one and does
    not carry [data-url], in document order: N - K links for N anchors with
    an [href] of which K are marked, and the empty list when none is left. *)
Theorem C8_links_are_the_unmarked_anchors
    (requests_get : string -> Response) (bs : string -> SoupStrainer -> node)
    (url_parts : list string) (w : world) :
  let res := requests_get (Str.join url_parts) in
  let fragment := bs (text res) (Strainer "div" "class" "span3") in
  let anchors := Soup.find_all is_anchor_with_href fragment in
  status_code res = 200%Z ->
  text res <> EmptyString ->
  exists links,
    get_wikimapia_links_from_html requests_get bs url_parts w
    = (Return (Some links), w)
    /\ Forall2 href_of (List.filter unmarked anchors) links
    /\ length links = length anchors - length (List.filter marked anchors)
    /\ (length anchors = length (List.filter marked anchors) -> links = []).
Proof.
  intros res fragment anchors Hstatus Hbody.
  destruct (links_of_listing fragment) as (links & Hlinks & Hall & Hlen).
  fold anchors in Hall, Hlen.
  exists links. split; [|split; [assumption | split; [assumption|]]].
  - assert (Ht : truthy (Some (text res)) = true)
      by (destruct (text res); [congruence | reflexivity]).
    unfold get_wikimapia_links_from_html, check_last_page.
    fold res. rewrite Hstatus. cbn -[truthy]. rewrite Ht. cbn.
    fold fragment. rewrite Hlinks. reflexivity.
  - intros Hnone. destruct links; [reflexivity | simpl in Hlen; lia].
Qed.

Lemma C8_witness :
  let anchors := Soup.find_all is_anchor_with_href listing in
  exists links,
    get_wikimapia_links_from_html (fun _ => listing_ok) (serve listing)
      ["http://wikimapia.org/country/"; "Israel/"] quiet
    = (Return (Some links), quiet)
    /\ Forall2 href_of (List.filter unmarked anchors) links
    /\ length links = length anchors - length (List.filter marked anchors)
    /\ (length anchors = length (List.filter marked anchors) -> links = []).
Proof.
  apply (C8_links_are_the_unmarked_anchors (fun _ => listing_ok)
           (serve listing) ["http://wikimapia.org/country/"; "Israel/"] quiet).
  - reflexivity.
  - discriminate.
Defined.

Example listing_links :
  get_wikimapia_links_from_html (fun _ => listing_ok) (serve listing)
    ["http://wikimapia.org/country/"; "Israel/"] quiet
  = (Return (Some ["/country/Israel/Haifa/"; "/country/Israel/Eilat/"]), quiet).
Proof. reflexivity. Qed.

Example bare_listing_links :
  get_wikimapia_links_from_html (fun _ => listing_ok) (serve bare_listing)
    ["http://wikimapia.org/country/"; "Israel/"] quiet
  = (Return (Some []), quiet).
Proof. reflexivity. Qed.

(** *** The link collector: a page that is missing or empty *)

(** C10: a listing page fetched with status 200 and an empty body makes
    the collector return [None], as a fetch with another status does. *)
Theorem C10_empty_body_gives_none
    (requests_get : string -> Response) (bs : string -> SoupStrainer -> node)
    (url_parts : list string) (w : world) :
  let res := requests_get (Str.join url_parts) in
  (status_code res = 200%Z -> text res = EmptyString ->
   get_wikimapia_links_from_html requests_get bs url_parts w
   = (Return None, w))
  /\ (status_code res <> 200%Z ->
      fst (get_wikimapia_links_from_html requests_get bs url_parts w)
      = Return None).
Proof.
  intros res. subst res.
  unfold get_wikimapia_links_from_html, check_last_page. split.
  - intros Hs Ht. rewrite Hs, Ht. reflexivity.
  - intros Hs. apply Z.eqb_neq in Hs. rewrite Hs. reflexivity.
Qed.

Lemma C10_witness :
  get_wikimapia_links_from_html (fun _ => empty_ok) (serve full_page)
    ["http://wikimapia.org/country/"; "Israel"] quiet
  = (Return None, quiet)
  /\ fst (get_wikimapia_links_from_html (fun _ => not_found) (serve full_page)
            ["http://wikimapia.org/country/"; "Israel"] quiet)
     = Return None.
Proof.
  split.
  - apply (proj1 (C10_empty_body_gives_none (fun _ => empty_ok)
                    (serve full_page) _ quiet)); reflexivity.
  - apply (proj2 (C10_empty_body_gives_none (fun _ => not_found)
                    (serve full_page) _ quiet)). simpl. lia.
Defined.

(** *** Construction after a failed fetch *)

Lemma print_keeps_sinks line w :
  files (print line w) = files w /\ mongo (print line w) = mongo w
  /\ now (print line w) = now w.
Proof. repeat split. Qed.

(** C5: when the fetch does not answer 200, constructing either scraper
    raises an exception whose message is the timestamp, the words
    [ERROR: GeoScraper couldn't scrape] and the URL; the files and the
    document store are as before, and whatever the caller meant to do with
    the scraper ([__call__] included) does not run. *)
Theorem C5_failed_fetch_raises
    (loads : string -> result value)
    (url : string) (requests_session : string -> Response) (w : world) :
  let failure :=
    Exception (now w ++ " ERROR: GeoScraper couldn't scrape " ++ url)%string in
  (status_code (requests_session url) <> 200%Z ->
   exists w',
     HTMLGeoScraper.__init__ url requests_session w = (Raise failure, w')
     /\ files w' = files w /\ mongo w' = mongo w
     /\ forall (B : Type) (k : HTMLGeoScraper.t -> world -> result B * world),
         and_then (HTMLGeoScraper.__init__ url requests_session w) k
         = (Raise failure, w'))
  /\ (forall id,
      Str.split_on "/" url !! 3%nat = Some id ->
      status_code (requests_session (APIGeoScraper.api_url id)) <> 200%Z ->
      exists w',
        APIGeoScraper.__init__ loads url requests_session w = (Raise failure, w')
        /\ files w' = files w /\ mongo w' = mongo w
        /\ forall (B : Type) (k : APIGeoScraper.t -> world -> result B * world),
            and_then (APIGeoScraper.__init__ loads url requests_session w) k
            = (Raise failure, w')).
Proof.
  intros failure. subst failure. split.
  - intros Hs. apply Z.eqb_neq in Hs.
    exists (print "Not status code 200." w).
    unfold HTMLGeoScraper.__init__, scrape_error. rewrite Hs. simpl.
    repeat split.
  - intros id Hid Hs. apply Z.eqb_neq in Hs.
    exists (print "Not status code 200." w).
    unfold APIGeoScraper.__init__, scrape_error, list_getitem.
    rewrite Hid, Hs. simpl. repeat split.
Qed.

Lemma C5_witness :
  let url := "http://wikimapia.org/12345/en/Azrieli-Center" in
  let failure :=
    Exception
      "2021-03-01 12:00:00.000000 ERROR: GeoScraper couldn't scrape http://wikimapia.org/12345/en/Azrieli-Center" in
  (exists w',
     HTMLGeoScraper.__init__ url (fun _ => not_found) quiet = (Raise failure, w')
     /\ files w' = files quiet /\ mongo w' = mongo quiet
     /\ forall (B : Type) (k : HTMLGeoScraper.t -> world -> result B * world),
         and_then (HTMLGeoScraper.__init__ url (fun _ => not_found) quiet) k
         = (Raise failure, w'))
  /\ (exists w',
        APIGeoScraper.__init__ (fun _ => Raise JSONDecodeError) url
          (fun _ => not_found) quiet = (Raise failure, w')
        /\ files w' = files quiet /\ mongo w' = mongo quiet
        /\ forall (B : Type) (k : APIGeoScraper.t -> world -> result B * world),
            and_then (APIGeoScraper.__init__ (fun _ => Raise JSONDecodeError) url
                        (fun _ => not_found) quiet) k
            = (Raise failure, w')).
Proof.
  intros url failure.
  destruct (C5_failed_fetch_raises (fun _ => Raise JSONDecodeError) url
              (fun _ => not_found) quiet) as [Hhtml Hapi].
  split.
  - apply Hhtml. simpl. lia.
  - apply (Hapi "12345"); [reflexivity | simpl; lia].
Defined.

(** What a successful [__call__] writes, for comparison: one line in the
    output file and one document in the collection. *)
Lemma call_writes_both_sinks bs dumps self geo_json line conn db coll out w :
  HTMLGeoScraper.parse_point_to_geoJSON bs self = Return geo_json ->
  dumps geo_json = Return line ->
  let w' := snd (HTMLGeoScraper.__call__ bs dumps self conn db coll out w) in
  files w' !! out
  = Some (default EmptyString (files w !! out) ++ line ++ "," ++ newline)%string
  /\ mongo w' !! (conn, db, coll)
     = Some (default [] (mongo w !! (conn, db, coll)) ++ [geo_json]).
Proof.
  intros Hparse Hdumps. unfold HTMLGeoScraper.__call__.
  rewrite Hparse, Hdumps. simpl. rewrite !lookup_insert_eq. simpl.
  split; reflexivity.
Qed.

(** *** [HTMLGeoScraper.get_geometry] *)

Lemma head_filter_fst {A B} (f : A -> bool) (l : list (A * B)) :
  head (List.filter f (map fst l))
  = fst <$> head (List.filter (fun c => f c.1) l).
Proof.
  induction l as [|[a b] l IH]; simpl; [reflexivity|].
  destruct (f a); simpl; [reflexivity | exact IH].
Qed.

Lemma find_with_sibling_fst p n :
  Soup.find p n = fst <$> Soup.find_with_sibling p n.
Proof.
  unfold Soup.find, Soup.find_all, Soup.find_with_sibling, Soup.descendants.
  apply (head_filter_fst (fun c => Soup.is_tag c && p c)).
Qed.

Lemma sibling_split_malformed sibling :
  malformed_sibling sibling = true -> exists e, sibling_split sibling = Raise e.
Proof.
  destruct sibling as [[s|nm a cs]|]; simpl; intros H; eauto; [discriminate|].
  destruct (Soup.find (Soup.name_is "split") (Tag nm a cs)); eauto.
  exfalso. apply negb_true_iff, bool_decide_eq_false in H. apply H. eauto.
Qed.

(** C4: when no [b] tag whose string contains [Coordinates] is found, or
    the one found has no usable next sibling, [get_geometry] returns the
    point without coordinates. *)
Theorem C4_geometry_falls_back_to_empty (html_object : node) :
  Soup.find HTMLGeoScraper.is_coordinates_label html_object = None
  \/ (exists label sibling,
        Soup.find_with_sibling HTMLGeoScraper.is_coordinates_label html_object
        = Some (label, sibling)
        /\ malformed_sibling sibling = true) ->
  HTMLGeoScraper.get_geometry html_object
  = dict [("type", VStr "Point"); ("coordinates", VList [])].
Proof.
  unfold HTMLGeoScraper.get_geometry.
  intros [Habsent | (label & sibling & Hfound & Hbad)].
  - rewrite find_with_sibling_fst in Habsent.
    destruct (Soup.find_with_sibling _ html_object); [discriminate|].
    reflexivity.
  - rewrite Hfound. simpl.
    apply sibling_split_malformed in Hbad as [e ->]. reflexivity.
Qed.

Lemma C4_witness :
  HTMLGeoScraper.get_geometry sparse_page
  = dict [("type", VStr "Point"); ("coordinates", VList [])]
  /\ HTMLGeoScraper.get_geometry broken_coordinates_page
     = dict [("type", VStr "Point"); ("coordinates", VList [])].
Proof.
  split.
  - apply C4_geometry_falls_back_to_empty. left. reflexivity.
  - apply C4_geometry_falls_back_to_empty. right.
    exists (Tag "b" ∅ [NavigableString "Coordinates:"]), (Some (Tag "br" ∅ [])).
    split; reflexivity.
Defined.

(** A sibling on which [.split()] does not raise is not covered: a string
    gives its tokens, and an element that holds a [split] element gives
    the tags below that element. *)
Example coordinates_of_full_page :
  HTMLGeoScraper.get_geometry full_page
  = dict [("type", VStr "Point");
          ("coordinates", strs ["32.0745"; "34.7919"])].
Proof. reflexivity. Qed.

Example coordinates_of_split_element :
  HTMLGeoScraper.get_geometry split_element_page
  = dict [("type", VStr "Point"); ("coordinates", VList [VTag (Tag "i" ∅ [])])].
Proof. reflexivity. Qed.

(** *** [HTMLGeoScraper.get_description] *)

(** C9: without the description container the getter returns a dictionary
    that holds the key [description] with the value [None]; with it, the
    value is the container's text, stripped. *)
Theorem C9_description_null_or_stripped (html_object : node) :
  (Soup.find (HTMLGeoScraper.is_div_with_id "place-description") html_object
   = None ->
   HTMLGeoScraper.get_description html_object = dict [("description", VNone)]
   /\ get "description" (HTMLGeoScraper.get_description html_object)
      = Some VNone)
  /\ (forall container,
      Soup.find (HTMLGeoScraper.is_div_with_id "place-description") html_object
      = Some container ->
      HTMLGeoScraper.get_description html_object
      = dict [("description", VStr (Str.strip (Soup.get_text container)))]).
Proof.
  unfold HTMLGeoScraper.get_description. split.
  - intros ->. split; [reflexivity | apply get_dict_head].
  - intros container ->. reflexivity.
Qed.

Lemma C9_witness :
  (HTMLGeoScraper.get_description sparse_page = dict [("description", VNone)]
   /\ get "description" (HTMLGeoScraper.get_description sparse_page)
      = Some VNone)
  /\ HTMLGeoScraper.get_description full_page
     = dict [("description", VStr "A shopping mall.")].
Proof.
  split.
  - apply (proj1 (C9_description_null_or_stripped sparse_page)). reflexivity.
  - apply (proj2 (C9_description_null_or_stripped full_page)
             (Tag "div" {["id" := "place-description"]}
                [NavigableString "  A shopping mall. "])).
    reflexivity.
Defined.

(** *** [HTMLGeoScraper.get_location] *)

Lemma list_getitem_ge {A} (l : list A) i :
  length l <= i -> list_getitem l i = Raise IndexError.
Proof.
  intros H. unfold list_getitem. rewrite (lookup_ge_None_2 l i); [reflexivity|lia].
Qed.

Lemma list_getitem_lt {A} (l : list A) i :
  i < length l -> exists a, l !! i = Some a /\ list_getitem l i = Return a.
Proof.
  intros H. destruct (lookup_lt_is_Some_2 l i H) as [a Ha].
  exists a. unfold list_getitem. rewrite Ha. auto.
Qed.

(** The three subscripts of [get_location] on the tokens of the address. *)
Lemma get_location_tokens html_object address :
  Soup.find (Soup.name_is "address") html_object = Some address ->
  HTMLGeoScraper.get_location html_object
  = (let tokens := Str.split (Soup.get_text address) in
     country ← list_getitem tokens 0;
     state ← list_getitem tokens 2;
     place ← list_getitem tokens 4;
     Return (dict [("country", VStr country); ("state", VStr state);
                   ("place", VStr place)])).
Proof. unfold HTMLGeoScraper.get_location. intros ->. reflexivity. Qed.

(** C7: an address of fewer than five tokens makes [get_location] raise
    [IndexError]: position 4, and with at most two tokens position 2 as
    well, is out of range, and nothing catches the error. *)
Theorem C7_short_address_raises_index_error (html_object address : node) :
  Soup.find (Soup.name_is "address") html_object = Some address ->
  length (Str.split (Soup.get_text address)) < 5 ->
  HTMLGeoScraper.get_location html_object = Raise IndexError
  /\ (list_getitem (Str.split (Soup.get_text address)) 2 = Raise IndexError
      \/ list_getitem (Str.split (Soup.get_text address)) 4 = Raise IndexError).
Proof.
  intros Hfound Hlen. rewrite (get_location_tokens _ _ Hfound).
  split.
  - cbv zeta.
    destruct (Str.split (Soup.get_text address))
      as [|t0 [|t1 [|t2 [|t3 [|t4 rest]]]]]; simpl in *; try reflexivity; lia.
  - right. apply list_getitem_ge. lia.
Qed.

Lemma C7_witness :
  HTMLGeoScraper.get_location short_address_page = Raise IndexError
  /\ (list_getitem (Str.split "Israel , Haifa") 2 = Raise IndexError
      \/ list_getitem (Str.split "Israel , Haifa") 4 = Raise IndexError).
Proof.
  apply (C7_short_address_raises_index_error short_address_page
           (Tag "address" ∅ [NavigableString "Israel , Haifa"])).
  - reflexivity.
  - vm_compute. lia.
Defined.

(** With no token at all the first subscript is the one out of range. *)
Example empty_address_raises :
  HTMLGeoScraper.get_location empty_address_page = Raise IndexError
  /\ list_getitem (Str.split EmptyString) 0 = Raise (A:=string) IndexError.
Proof. split; reflexivity. Qed.

(** *** [str.split] on words *)

Lemma to_list_app s1 s2 :
  Str.to_list (s1 ++ s2)%string = Str.to_list s1 ++ Str.to_list s2.
Proof.
  unfold Str.to_list. induction s1 as [|c s1 IH]; simpl; [reflexivity|].
  rewrite IH. reflexivity.
Qed.

Lemma of_list_to_list s : Str.of_list (Str.to_list s) = s.
Proof. apply string_of_list_ascii_of_string. Qed.

Lemma split_ws_aux_word word cur rest :
  forallb (fun c => negb (Str.isspace c)) word = true ->
  Str.split_ws_aux cur (word ++ rest) = Str.split_ws_aux (rev word ++ cur) rest.
Proof.
  revert cur. induction word as [|c word IH]; intros cur Hword; simpl in *.
  - reflexivity.
  - apply andb_true_iff in Hword as [Hc Hword].
    apply negb_true_iff in Hc. rewrite Hc, (IH _ Hword).
    rewrite <- app_assoc. reflexivity.
Qed.

Lemma split_ws_aux_space c d cur rest :
  Str.isspace c = true ->
  Str.split_ws_aux (d :: cur) (c :: rest)
  = Str.of_list (rev (d :: cur)) :: Str.split_ws_aux [] rest.
Proof. intros Hc. simpl. rewrite Hc. reflexivity. Qed.

Lemma split_ws_aux_end d cur :
  Str.split_ws_aux (d :: cur) [] = [Str.of_list (rev (d :: cur))].
Proof. reflexivity. Qed.

(** A word followed by a space is the next token. *)
Lemma split_ws_aux_token s c rest :
  is_word s = true -> Str.isspace c = true ->
  Str.split_ws_aux [] (Str.to_list s ++ c :: rest)
  = s :: Str.split_ws_aux [] rest.
Proof.
  unfold is_word. intros Hs Hc.
  destruct (Str.to_list s) as [|a l] eqn:Hl; [discriminate|].
  rewrite (split_ws_aux_word _ _ _ Hs), app_nil_r.
  destruct (rev (a :: l)) as [|d cur] eqn:Hrev.
  { apply (f_equal (@length _)) in Hrev. rewrite length_rev in Hrev.
    discriminate. }
  rewrite (split_ws_aux_space _ _ _ _ Hc), <- Hrev, rev_involutive, <- Hl.
  rewrite of_list_to_list. reflexivity.
Qed.

(** A word that ends the text is the last token. *)
Lemma split_ws_aux_last s :
  is_word s = true -> Str.split_ws_aux [] (Str.to_list s) = [s].
Proof.
  unfold is_word. intros Hs.
  destruct (Str.to_list s) as [|a l] eqn:Hl; [discriminate|].
  rewrite <- (app_nil_r (a :: l)), (split_ws_aux_word _ _ _ Hs), app_nil_r.
  destruct (rev (a :: l)) as [|d cur] eqn:Hrev.
  { apply (f_equal (@length _)) in Hrev. rewrite length_rev in Hrev.
    discriminate. }
  rewrite split_ws_aux_end, <- Hrev, rev_involutive, <- Hl.
  rewrite of_list_to_list. reflexivity.
Qed.

Lemma separator_app rest :
  Str.to_list " , " ++ rest
  = " "%char :: Str.to_list "," ++ " "%char :: rest.
Proof. reflexivity. Qed.

Lemma split_three_part_address country state place :
  is_word country = true -> is_word state = true -> is_word place = true ->
  Str.split (three_part_address country state place)
  = [country; ","; state; ","; place].
Proof.
  intros Hc Hs Hp. unfold Str.split, three_part_address.
  rewrite !to_list_app, !separator_app.
  rewrite (split_ws_aux_token country) by (assumption || reflexivity).
  rewrite (split_ws_aux_token ",") by reflexivity.
  rewrite (split_ws_aux_token state) by (assumption || reflexivity).
  rewrite (split_ws_aux_token ",") by reflexivity.
  rewrite (split_ws_aux_last place Hp). reflexivity.
Qed.

(** C2, as the code has it: [get_location] reads the tokens at positions
    0, 2 and 4 of the white-space split of the address text; for an
    address [country , state , place] whose three names are single words
    these are the country, the state and the place. *)
Theorem C2_location_of_one_word_names
    (html_object address : node) (country state place : string) :
  Soup.find (Soup.name_is "address") html_object = Some address ->
  Soup.get_text address = three_part_address country state place ->
  is_word country = true -> is_word state = true -> is_word place = true ->
  HTMLGeoScraper.get_location html_object
  = Return (dict [("country", VStr country); ("state", VStr state);
                  ("place", VStr place)]).
Proof.
  intros Hfound Htext Hc Hs Hp.
  rewrite (get_location_tokens _ _ Hfound), Htext.
  rewrite (split_three_part_address _ _ _ Hc Hs Hp). reflexivity.
Qed.

Lemma C2_witness :
  HTMLGeoScraper.get_location (address_page "Israel , Tel-Aviv , Jaffa")
  = Return (dict [("country", VStr "Israel"); ("state", VStr "Tel-Aviv");
                  ("place", VStr "Jaffa")]).
Proof.
  apply (C2_location_of_one_word_names
           (address_page "Israel , Tel-Aviv , Jaffa")
           (Tag "address" ∅ [NavigableString "Israel , Tel-Aviv , Jaffa"]));
    reflexivity.
Defined.

(** On the address of the scenario the split also cuts inside the names:
    positions 2 and 4 hold [Tel] and [District]. *)
Example tel_aviv_location :
  HTMLGeoScraper.get_location
    (address_page "Israel , Tel Aviv District , Tel Aviv")
  = Return (dict [("country", VStr "Israel"); ("state", VStr "Tel");
                  ("place", VStr "District")]).
Proof. reflexivity. Qed.

Lemma C2_counterexample :
  Str.split "Israel , Tel Aviv District , Tel Aviv"
  = ["Israel"; ","; "Tel"; "Aviv"; "District"; ","; "Tel"; "Aviv"]
  /\ HTMLGeoScraper.get_location
       (address_page "Israel , Tel Aviv District , Tel Aviv")
     <> Return (dict [("country", VStr "Israel");
                      ("state", VStr "Tel Aviv District");
                      ("place", VStr "Tel Aviv")]).
Proof.
  split; [reflexivity|].
  intros H.
  assert (Hstate :
    (v ← HTMLGeoScraper.get_location
           (address_page "Israel , Tel Aviv District , Tel Aviv");
     Return (get "state" v))
    = Return (Some (VStr "Tel Aviv District"))) by (rewrite H; reflexivity).
  discriminate Hstate.
Qed.

(** *** [HTMLGeoScraper.get_nearby_places] *)

Lemma nearby_place_complete place :
  complete place ->
  exists pair, HTMLGeoScraper.nearby_place place = Return pair
               /\ paired place pair.
Proof.
  intros [[a Ha] [s Hs]]. unfold HTMLGeoScraper.nearby_place, paired.
  rewrite Ha, Hs. simpl.
  eexists. split; [reflexivity|]. exists a, s. auto.
Qed.

Lemma nearby_place_incomplete place :
  ~ complete place ->
  HTMLGeoScraper.nearby_place place = Raise AttributeError.
Proof.
  unfold complete, HTMLGeoScraper.nearby_place. intros H.
  destruct (Soup.find (Soup.name_is "a") place); simpl; [|reflexivity].
  destruct (Soup.find (Soup.name_is "span") place); simpl; [|reflexivity].
  exfalso. apply H. split; eauto.
Qed.

Lemma nearby_place_raises_only_AttributeError place e :
  HTMLGeoScraper.nearby_place place = Raise e -> e = AttributeError.
Proof.
  unfold HTMLGeoScraper.nearby_place.
  destruct (Soup.find (Soup.name_is "a") place); simpl; [|congruence].
  destruct (Soup.find (Soup.name_is "span") place); simpl; congruence.
Qed.

Lemma comprehension_complete items :
  Forall complete items ->
  exists pairs,
    comprehension HTMLGeoScraper.nearby_place items = Return pairs
    /\ Forall2 paired items pairs.
Proof.
  induction 1 as [|place items Hplace _ (pairs & Hpairs & Hall)]; simpl.
  - exists []. split; [reflexivity | constructor].
  - destruct (nearby_place_complete place Hplace) as (pair & -> & Hpair).
    simpl. rewrite Hpairs. simpl.
    exists (pair :: pairs). split; [reflexivity | constructor; assumption].
Qed.

Lemma comprehension_incomplete items :
  Exists (fun place => ~ complete place) items ->
  comprehension HTMLGeoScraper.nearby_place items = Raise AttributeError.
Proof.
  induction 1 as [place items Hplace | place items _ IH]; simpl.
  - rewrite (nearby_place_incomplete place Hplace). reflexivity.
  - destruct (HTMLGeoScraper.nearby_place place) as [pair|e] eqn:Hp; simpl.
    + rewrite IH. reflexivity.
    + f_equal. eapply nearby_place_raises_only_AttributeError; eassumption.
Qed.

(** C6, as the code has it: without the nearby-places container the getter
    raises; with it, and a link and a [span] in every list item, it
    returns one name and distance pair per item, in order; an item that
    lacks either makes it raise as well. *)
Theorem C6_nearby_places_pairs_or_raises (html_object : node) :
  (Soup.find (HTMLGeoScraper.is_div_with_id "nearby-places") html_object = None ->
   HTMLGeoScraper.get_nearby_places html_object = Raise AttributeError)
  /\ (forall container,
      Soup.find (HTMLGeoScraper.is_div_with_id "nearby-places") html_object
      = Some container ->
      let items := Soup.find_all (Soup.name_is "li") container in
      (Forall complete items ->
       exists pairs,
         HTMLGeoScraper.get_nearby_places html_object = Return (VList pairs)
         /\ length pairs = length items
         /\ Forall2 paired items pairs)
      /\ (Exists (fun place => ~ complete place) items ->
          HTMLGeoScraper.get_nearby_places html_object = Raise AttributeError)).
Proof.
  split.
  - unfold HTMLGeoScraper.get_nearby_places. intros ->. reflexivity.
  - intros container Hfound items.
    unfold HTMLGeoScraper.get_nearby_places. rewrite Hfound. simpl.
    fold items. split.
    + intros Hall.
      destruct (comprehension_complete items Hall) as (pairs & -> & Hpairs).
      exists pairs. simpl.
      split; [reflexivity|]. split; [|assumption].
      symmetry. eapply Forall2_length; eassumption.
    + intros Hsome. rewrite (comprehension_incomplete items Hsome). reflexivity.
Qed.

Lemma C6_witness :
  HTMLGeoScraper.get_nearby_places short_address_page = Raise AttributeError
  /\ (exists pairs,
        HTMLGeoScraper.get_nearby_places full_page = Return (VList pairs)
        /\ length pairs = 2
        /\ Forall2 paired
             [Tag "li" ∅
                [Tag "a" {["href" := "/1"]} [NavigableString "Sarona"];
                 NavigableString " ";
                 Tag "span" ∅ [NavigableString "0.5 km"]];
              Tag "li" ∅
                [Tag "a" {["href" := "/2"]} [NavigableString "Kirya"];
                 NavigableString " ";
                 Tag "span" ∅ [NavigableString "0.7 km"]]]
             pairs)
  /\ HTMLGeoScraper.get_nearby_places plain_item_page = Raise AttributeError.
Proof.
  split; [|split].
  - apply (proj1 (C6_nearby_places_pairs_or_raises short_address_page)).
    reflexivity.
  - refine (proj1 (proj2 (C6_nearby_places_pairs_or_raises full_page)
                     (Tag "div" {["id" := "nearby-places"]} _) eq_refl) _).
    repeat constructor; eexists; reflexivity.
  - refine (proj2 (proj2 (C6_nearby_places_pairs_or_raises plain_item_page)
                     (Tag "div" {["id" := "nearby-places"]} _) eq_refl) _).
    constructor. intros [[a Ha] _]. discriminate Ha.
Defined.

(** The claim as worded fails on a page that has the container: its only
    list item holds no link, and the getter raises instead of returning a
    pair for it. *)
Lemma C6_counterexample :
  is_Some (Soup.find (HTMLGeoScraper.is_div_with_id "nearby-places")
             plain_item_page)
  /\ ~ (exists pairs,
          HTMLGeoScraper.get_nearby_places plain_item_page
          = Return (VList pairs)).
Proof.
  split.
  - eexists. reflexivity.
  - intros [pairs H]. discriminate H.
Qed.

(** *** [APIGeoScraper]: a missing key *)

Lemma getitem_absent v key :
  get key v = None -> exists e, getitem v key = Raise e.
Proof.
  destruct v; simpl; intros H; eauto.
  - rewrite H. eauto.
  - destruct (Soup.attr key t); [discriminate | eauto].
Qed.

Lemma getitem_present v key x :
  get key v = Some x -> getitem v key = Return x.
Proof.
  destruct v; simpl; try discriminate.
  - intros ->. reflexivity.
  - destruct (Soup.attr key t); simpl; [|discriminate].
    intros [= <-]. reflexivity.
Qed.

(** C3: an API getter whose key is missing from the parsed response gives
    [None], and [get_geometry] gives a polygon without coordinates.  The
    subscript itself raises on such a key; the getters catch it, and being
    functions to [value] they raise nothing. *)
Theorem C3_api_getters_tolerate_missing_keys (self : APIGeoScraper.t) :
  let response := APIGeoScraper.json self in
  (get "title" response = None -> APIGeoScraper.get_title self = VNone)
  /\ (get "location" response = None -> APIGeoScraper.get_location self = VNone)
  /\ (get "description" response = None ->
      APIGeoScraper.get_description self = VNone)
  /\ (get "nearestPlaces" response = None ->
      APIGeoScraper.get_nearby_places self = VNone)
  /\ (get "polygon" response = None ->
      APIGeoScraper.get_geometry self
      = dict [("type", VStr "polygon"); ("coordinates", VList [])])
  /\ (forall key, get key response = None ->
      exists e, getitem response key = Raise e).
Proof.
  intros response. subst response.
  unfold APIGeoScraper.get_title, APIGeoScraper.get_location,
    APIGeoScraper.get_description, APIGeoScraper.get_nearby_places,
    APIGeoScraper.get_geometry.
  repeat split; intros; (apply getitem_absent; assumption)
    || (match goal with H : get _ _ = None |- _ =>
          apply getitem_absent in H as [e ->] end; reflexivity).
Qed.

Lemma C3_witness :
  APIGeoScraper.get_title bare_response = VNone
  /\ APIGeoScraper.get_location bare_response = VNone
  /\ APIGeoScraper.get_description bare_response = VNone
  /\ APIGeoScraper.get_nearby_places bare_response = VNone
  /\ APIGeoScraper.get_geometry bare_response
     = dict [("type", VStr "polygon"); ("coordinates", VList [])].
Proof.
  destruct (C3_api_getters_tolerate_missing_keys bare_response)
    as (Ht & Hl & Hd & Hn & Hg & _).
  refine (conj (Ht _) (conj (Hl _) (conj (Hd _) (conj (Hn _) (Hg _)))));
    reflexivity.
Defined.

Example park_x_properties :
  APIGeoScraper.get_properties park_x
  = dict [("title", VStr "Park X"); ("location", VNone);
          ("description", VNone); ("nearestPlaces", VNone)].
Proof. reflexivity. Qed.

(** *** Either scraper: the shape of the feature *)

(** C1: whenever [parse_point_to_geoJSON] returns, for either scraper, what
    it returns is a dictionary whose keys are exactly [type], [geometry]
    and [properties], with [type] the string [Feature]. *)
Theorem C1_feature_has_three_keys bs scraper v :
  parse_point_to_geoJSON bs scraper = Return v ->
  is_dict v /\ keys v = {["type"; "geometry"; "properties"]}
  /\ get "type" v = Some (VStr "Feature").
Proof.
  destruct scraper as [self|self]; simpl.
  - unfold HTMLGeoScraper.parse_point_to_geoJSON.
    intros H. apply bind_Return_inv in H as (props & _ & H).
    injection H as <-.
    split; [eexists; reflexivity|]. split; [apply keys_dict3 | apply get_dict_head].
  - intros H. injection H as <-.
    unfold APIGeoScraper.parse_point_to_geoJSON.
    split; [eexists; reflexivity|]. split; [apply keys_dict3 | apply get_dict_head].
Qed.

Lemma C1_witness :
  let v := dict [("type", VStr "Feature");
                 ("geometry",
                  dict [("type", VStr "Point"); ("coordinates", VList [])]);
                 ("properties",
                  dict [("title", dict [("title", VNone)]);
                        ("location",
                         dict [("country", VStr "Israel");
                               ("state", VStr "Haifa");
                               ("place", VStr "Haifa")]);
                        ("description", dict [("description", VNone)]);
                        ("nearestPlaces", VList [])])] in
  parse_point_to_geoJSON (serve sparse_page) (OfHTML fetched) = Return v
  /\ is_dict v /\ keys v = {["type"; "geometry"; "properties"]}
  /\ get "type" v = Some (VStr "Feature").
Proof.
  intros v.
  assert (H : parse_point_to_geoJSON (serve sparse_page) (OfHTML fetched)
              = Return v) by reflexivity.
  split; [exact H|].
  exact (C1_feature_has_three_keys (serve sparse_page) (OfHTML fetched) v H).
Defined.

(** * Further properties *)

(** *** [APIGeoScraper]: what the getters read *)

Lemma try_getitem v key fallback :
  try_except (getitem v key) fallback = default fallback (get key v).
Proof.
  destruct (get key v) as [x|] eqn:H.
  - rewrite (getitem_present _ _ _ H). reflexivity.
  - destruct (getitem_absent _ _ H) as [e ->]. reflexivity.
Qed.

Lemma api_getters_default (self : APIGeoScraper.t) :
  let response := APIGeoScraper.json self in
  APIGeoScraper.get_title self = default VNone (get "title" response)
  /\ APIGeoScraper.get_location self = default VNone (get "location" response)
  /\ APIGeoScraper.get_description self
     = default VNone (get "description" response)
  /\ APIGeoScraper.get_nearby_places self
     = default VNone (get "nearestPlaces" response)
  /\ APIGeoScraper.get_geometry self
     = dict [("type", VStr "polygon");
             ("coordinates", default (VList []) (get "polygon" response))].
Proof.
  cbv zeta.
  unfold APIGeoScraper.get_title, APIGeoScraper.get_location,
    APIGeoScraper.get_description, APIGeoScraper.get_nearby_places,
    APIGeoScraper.get_geometry.
  rewrite !try_getitem. repeat split.
Qed.

(** X1: each API getter is [response.get(key)] with [None] as default (the
    empty list for the coordinates): a value that is present is passed on
    unchanged. *)
Theorem api_getters_pass_values_on (self : APIGeoScraper.t) :
  let response := APIGeoScraper.json self in
  APIGeoScraper.get_title self = default VNone (get "title" response)
  /\ APIGeoScraper.get_location self = default VNone (get "location" response)
  /\ APIGeoScraper.get_description self
     = default VNone (get "description" response)
  /\ APIGeoScraper.get_nearby_places self
     = default VNone (get "nearestPlaces" response)
  /\ APIGeoScraper.get_geometry self
     = dict [("type", VStr "polygon");
             ("coordinates", default (VList []) (get "polygon" response))].
Proof. exact (api_getters_default self). Qed.

(** X2: the feature of the API scraper depends on five keys of the response
    only: two responses that agree on them give the same feature, whatever
    else they hold, and whatever the identifier. *)
Theorem api_feature_reads_five_keys (self other : APIGeoScraper.t) :
  Forall (fun key => get key (APIGeoScraper.json self)
                     = get key (APIGeoScraper.json other)) api_keys ->
  APIGeoScraper.parse_point_to_geoJSON self
  = APIGeoScraper.parse_point_to_geoJSON other.
Proof.
  intros H.
  repeat (apply Forall_cons_1 in H as [?Hkey H]).
  destruct (api_getters_default self) as (Ht & Hl & Hd & Hn & Hg).
  destruct (api_getters_default other) as (Ht' & Hl' & Hd' & Hn' & Hg').
  unfold APIGeoScraper.parse_point_to_geoJSON, APIGeoScraper.get_properties.
  cbv zeta in *.
  rewrite Ht, Hl, Hd, Hn, Hg, Ht', Hl', Hd', Hn', Hg'.
  congruence.
Qed.

Lemma api_feature_reads_five_keys_witness :
  APIGeoScraper.parse_point_to_geoJSON park_x
  = APIGeoScraper.parse_point_to_geoJSON park_x_verbose.
Proof.
  apply api_feature_reads_five_keys.
  repeat constructor.
Defined.

(** *** [APIGeoScraper.__init__] *)

Lemma length_split_on_aux sep cur l :
  length (Str.split_on_aux sep cur l)
  = S (length (List.filter (Ascii.eqb sep) l)).
Proof.
  revert cur. induction l as [|c l IH]; intros cur; simpl; [reflexivity|].
  rewrite (Ascii.eqb_sym sep c).
  destruct (Ascii.eqb c sep); simpl; rewrite IH; reflexivity.
Qed.

(** [s.split(sep)] has one piece more than [s] has separators. *)
Lemma length_split_on sep s :
  length (Str.split_on sep s) = S (count_char sep s).
Proof. apply length_split_on_aux. Qed.

(** X3: A URL with fewer than three slashes has no fourth segment: the
    constructor raises [IndexError] before any request is made, whatever
    the session would have answered, and nothing is printed. *)
Theorem api_init_short_url_raises_index_error
    (loads : string -> result value) (url : string)
    (requests_session : string -> Response) (w : world) :
  count_char "/" url < 3 ->
  APIGeoScraper.__init__ loads url requests_session w = (Raise IndexError, w).
Proof.
  intros Hcount. unfold APIGeoScraper.__init__.
  rewrite list_getitem_ge; [reflexivity|].
  rewrite length_split_on. lia.
Qed.

Lemma api_init_short_url_raises_index_error_witness :
  APIGeoScraper.__init__ loads_park_x "/country/Israel"
    (fun _ => ok_with "{title: Park X}") quiet
  = (Raise IndexError, quiet).
Proof.
  apply api_init_short_url_raises_index_error. vm_compute. lia.
Defined.

(** X4: with a fourth segment and an answer 200 the constructor hands the body
    to [json.loads]: the scraper holds the segment and the parsed value, and
    a body that does not parse makes the decoder's error propagate.  Either
    way nothing is printed or written. *)
Theorem api_init_parses_the_body
    (loads : string -> result value) (url id : string)
    (requests_session : string -> Response) (w : world) :
  Str.split_on "/" url !! 3%nat = Some id ->
  status_code (requests_session (APIGeoScraper.api_url id)) = 200%Z ->
  APIGeoScraper.__init__ loads url requests_session w
  = (parsed ← loads (text (requests_session (APIGeoScraper.api_url id)));
     Return {| APIGeoScraper.id := id; APIGeoScraper.json := parsed |},
     w).
Proof.
  intros Hid Hstatus. unfold APIGeoScraper.__init__, list_getitem.
  rewrite Hid, Hstatus. simpl.
  destruct (loads _); reflexivity.
Qed.

Lemma api_init_parses_the_body_witness :
  APIGeoScraper.__init__ loads_park_x "http://wikimapia.org/12345/en/Park-X"
    (fun _ => ok_with "{title: Park X}") quiet
  = (Return park_x, quiet)
  /\ APIGeoScraper.__init__ loads_park_x "http://wikimapia.org/12345/en/Park-X"
       (fun _ => ok_with "<html>") quiet
     = (Raise JSONDecodeError, quiet).
Proof.
  split.
  - apply (api_init_parses_the_body loads_park_x _ "12345"
             (fun _ => ok_with "{title: Park X}") quiet); reflexivity.
  - apply (api_init_parses_the_body loads_park_x _ "12345"
             (fun _ => ok_with "<html>") quiet); reflexivity.
Defined.

(** The identifier is the fourth piece of the URL whatever the pieces are:
    for a link relative to the site it is not the place's number. *)
Example api_id_of_relative_link :
  Str.split_on "/" "/12345/en/Park-X" !! 3%nat = Some "Park-X".
Proof. reflexivity. Qed.

(** *** Tokens of [str.split] and the ends of [str.strip] *)

Lemma to_list_of_list l : Str.to_list (Str.of_list l) = l.
Proof. apply list_ascii_of_string_of_list_ascii. Qed.

Lemma forallb_rev {A} (f : A -> bool) (l : list A) :
  forallb f (rev l) = forallb f l.
Proof.
  induction l as [|x l IH]; simpl; [reflexivity|].
  rewrite forallb_app, IH. simpl. rewrite andb_true_r. apply andb_comm.
Qed.

Lemma is_word_of_run d cur :
  forallb (fun c => negb (Str.isspace c)) (d :: cur) = true ->
  is_word (Str.of_list (rev (d :: cur))) = true.
Proof.
  intros H. unfold is_word. rewrite to_list_of_list.
  destruct (rev (d :: cur)) as [|a l] eqn:Hrev.
  - apply (f_equal (@length _)) in Hrev. rewrite length_rev in Hrev.
    discriminate.
  - rewrite <- Hrev, forallb_rev. exact H.
Qed.

Lemma split_ws_aux_words l : forall cur,
  forallb (fun c => negb (Str.isspace c)) cur = true ->
  Forall (fun token => is_word token = true) (Str.split_ws_aux cur l).
Proof.
  induction l as [|c l IH]; intros cur Hcur; simpl.
  - destruct cur; constructor; [apply is_word_of_run; assumption | constructor].
  - destruct (Str.isspace c) eqn:Hc.
    + destruct cur; [apply IH; reflexivity|].
      constructor; [apply is_word_of_run; assumption | apply IH; reflexivity].
    + apply IH. simpl. rewrite Hc. exact Hcur.
Qed.

(** Every token of [s.split()] is a word: not empty, no white space. *)
Lemma split_words s : Forall (fun token => is_word token = true) (Str.split s).
Proof. apply split_ws_aux_words. reflexivity. Qed.

Lemma lstrip_list_spec l :
  exists spaces,
    l = spaces ++ Str.lstrip_list l
    /\ forallb Str.isspace spaces = true
    /\ match Str.lstrip_list l with
       | [] => True
       | c :: _ => Str.isspace c = false
       end.
Proof.
  induction l as [|c l (spaces & Hl & Hspaces & Hhead)]; simpl.
  - exists []. repeat split.
  - destruct (Str.isspace c) eqn:Hc.
    + exists (c :: spaces). simpl. rewrite Hc, <- Hl. repeat split; assumption.
    + exists []. simpl. rewrite Hc. repeat split.
Qed.

(** [s.strip()] cuts white space, and only white space, off both ends. *)
Lemma strip_spec s :
  exists before after,
    Str.to_list s = before ++ Str.to_list (Str.strip s) ++ after
    /\ forallb Str.isspace before = true
    /\ forallb Str.isspace after = true
    /\ trimmed (Str.strip s).
Proof.
  unfold Str.strip, trimmed. rewrite to_list_of_list.
  destruct (lstrip_list_spec (Str.to_list s)) as (before & Hs & Hbefore & Hhead).
  set (l1 := Str.lstrip_list (Str.to_list s)) in *.
  destruct (lstrip_list_spec (rev l1)) as (after & Hrev & Hafter & Hlast).
  set (r := Str.lstrip_list (rev l1)) in *.
  assert (Hl1 : l1 = rev r ++ rev after).
  { rewrite <- rev_app_distr, <- Hrev, rev_involutive. reflexivity. }
  exists before, (rev after).
  split; [rewrite <- Hl1; exact Hs|].
  split; [assumption|]. split; [rewrite forallb_rev; assumption|].
  destruct r as [|d r']; [exact I|].
  simpl rev in *. 
  destruct (rev r' ++ [d]) as [|c l] eqn:Hx.
  { destruct (rev r'); discriminate. }
  rewrite Hl1 in Hhead. simpl in Hhead. split; [assumption|].
  assert (Hd : List.last (c :: l) c = d).
  { rewrite <- Hx. apply List.last_last. }
  destruct l; simpl in Hd |- *; rewrite Hd; assumption.
Qed.

(** *** [HTMLGeoScraper]: the getters on any page *)

Lemma comprehension_Return_inv {A B} (f : A -> result B) l r :
  comprehension f l = Return r -> Forall2 (fun a b => f a = Return b) l r.
Proof.
  revert r. induction l as [|a l IH]; intros r; simpl.
  - intros [= <-]. constructor.
  - destruct (f a) as [b|e] eqn:Hfa; simpl; [|discriminate].
    destruct (comprehension f l) as [bs|e]; simpl; [|discriminate].
    intros [= <-]. constructor; [assumption | apply IH; reflexivity].
Qed.

Lemma nearby_place_Return_complete place pair :
  HTMLGeoScraper.nearby_place place = Return pair -> complete place.
Proof.
  unfold HTMLGeoScraper.nearby_place, complete.
  destruct (Soup.find (Soup.name_is "a") place); simpl; [|discriminate].
  destruct (Soup.find (Soup.name_is "span") place); simpl; [|discriminate].
  intros _. split; eauto.
Qed.

Lemma get_nearby_places_returns html_object :
  (exists v, HTMLGeoScraper.get_nearby_places html_object = Return v)
  <-> exists container,
        Soup.find (HTMLGeoScraper.is_div_with_id "nearby-places") html_object
        = Some container
        /\ Forall complete (Soup.find_all (Soup.name_is "li") container).
Proof.
  unfold HTMLGeoScraper.get_nearby_places. split.
  - intros [v H].
    destruct (Soup.find _ html_object) as [container|]; [|discriminate].
    exists container. split; [reflexivity|]. simpl in H.
    destruct (comprehension _ _) as [pairs|e] eqn:Hc; [|discriminate].
    apply comprehension_Return_inv in Hc.
    clear H. induction Hc; constructor;
      eauto using nearby_place_Return_complete.
  - intros (container & -> & Hall). simpl.
    destruct (comprehension_complete _ Hall) as (pairs & -> & _).
    simpl. eauto.
Qed.

Lemma get_location_returns html_object v :
  HTMLGeoScraper.get_location html_object = Return v <->
  exists address country t1 state t3 place rest,
    Soup.find (Soup.name_is "address") html_object = Some address
    /\ Str.split (Soup.get_text address)
       = country :: t1 :: state :: t3 :: place :: rest
    /\ v = dict [("country", VStr country); ("state", VStr state);
                 ("place", VStr place)].
Proof.
  unfold HTMLGeoScraper.get_location. split.
  - destruct (Soup.find _ html_object) as [address|]; [|discriminate]. simpl.
    destruct (Str.split (Soup.get_text address))
      as [|country [|t1 [|state [|t3 [|place rest]]]]] eqn:Hs;
      try discriminate.
    intros [= <-]. exists address, country, t1, state, t3, place, rest. auto.
  - intros (address & country & t1 & state & t3 & place & rest & -> & Hs & ->).
    simpl. rewrite Hs. reflexivity.
Qed.

(** X5: whatever [get_location] returns holds three words of the address: each
    value is not empty and has no white space in it, so a name of several
    words is never returned whole. *)
Theorem html_location_values_are_words (html_object : node) (v : value) :
  HTMLGeoScraper.get_location html_object = Return v ->
  exists country state place,
    v = dict [("country", VStr country); ("state", VStr state);
              ("place", VStr place)]
    /\ is_word country = true /\ is_word state = true
    /\ is_word place = true.
Proof.
  intros H. apply get_location_returns in H
    as (address & country & t1 & state & t3 & place & rest & _ & Hs & ->).
  pose proof (split_words (Soup.get_text address)) as Hwords.
  rewrite Hs in Hwords.
  repeat (apply Forall_cons_1 in Hwords as [?Hw Hwords]).
  exists country, state, place. auto.
Qed.

Lemma html_location_values_are_words_witness :
  exists country state place,
    dict [("country", VStr "Israel"); ("state", VStr "Tel");
          ("place", VStr "District")]
    = dict [("country", VStr country); ("state", VStr state);
            ("place", VStr place)]
    /\ is_word country = true /\ is_word state = true
    /\ is_word place = true.
Proof.
  apply (html_location_values_are_words full_page). reflexivity.
Defined.

(** X6: the pages from which [parse_point_to_geoJSON] returns are exactly those
    with an address of five tokens or more and a nearby-places container
    whose list items all hold a link and a [span]; heading, coordinates
    and description play no part. *)
Theorem html_extraction_succeeds_iff
    (bs : string -> SoupStrainer -> node) (self : HTMLGeoScraper.t) :
  let html_object :=
    bs (HTMLGeoScraper.html self) (Strainer "div" "id" "page-content") in
  (exists v, HTMLGeoScraper.parse_point_to_geoJSON bs self = Return v)
  <-> (exists address,
         Soup.find (Soup.name_is "address") html_object = Some address
         /\ 5 <= length (Str.split (Soup.get_text address)))
      /\ (exists container,
            Soup.find (HTMLGeoScraper.is_div_with_id "nearby-places")
              html_object = Some container
            /\ Forall complete (Soup.find_all (Soup.name_is "li") container)).
Proof.
  intros html_object.
  unfold HTMLGeoScraper.parse_point_to_geoJSON, HTMLGeoScraper.get_properties.
  fold html_object. rewrite <- get_nearby_places_returns. split.
  - intros [v H].
    destruct (HTMLGeoScraper.get_location html_object) as [loc|e] eqn:Hloc;
      [|discriminate].
    destruct (HTMLGeoScraper.get_nearby_places html_object) as [near|e];
      [|discriminate].
    split; [|eauto].
    apply get_location_returns in Hloc
      as (address & c & t1 & s & t3 & p & rest & Hfound & Hs & _).
    exists address. split; [assumption|]. rewrite Hs. simpl. lia.
  - intros [(address & Hfound & Hlen) [near Hnear]].
    destruct (Str.split (Soup.get_text address))
      as [|c [|t1 [|s [|t3 [|p rest]]]]] eqn:Hs; simpl in Hlen; try lia.
    assert (Hloc : HTMLGeoScraper.get_location html_object
                   = Return (dict [("country", VStr c); ("state", VStr s);
                                   ("place", VStr p)])).
    { apply get_location_returns.
      exists address, c, t1, s, t3, p, rest. auto. }
    rewrite Hloc, Hnear. simpl. eauto.
Qed.

Lemma html_extraction_succeeds_iff_witness :
  exists v,
    HTMLGeoScraper.parse_point_to_geoJSON (serve sparse_page) fetched = Return v.
Proof.
  apply (proj2 (html_extraction_succeeds_iff (serve sparse_page) fetched)).
  split.
  - exists (Tag "address" ∅ [NavigableString "Israel , Haifa , Haifa"]).
    split; [reflexivity | vm_compute; lia].
  - exists (Tag "div" {["id" := "nearby-places"]} [Tag "ul" ∅ []]).
    split; [reflexivity | constructor].
Defined.

(** X7: the title is the text of the first [h1], as it stands, and [None]
    when the page has no [h1]: the getter never raises, and unlike the
    description the text is not stripped. *)
Theorem html_title_is_first_heading (html_object : node) :
  HTMLGeoScraper.get_title html_object
  = dict [("title",
           from_option (fun h1 => VStr (Soup.get_text h1)) VNone
             (Soup.find (Soup.name_is "h1") html_object))].
Proof.
  unfold HTMLGeoScraper.get_title.
  destruct (Soup.find (Soup.name_is "h1") html_object); reflexivity.
Qed.

Example title_of_blank_coordinates_page :
  HTMLGeoScraper.get_title blank_coordinates_page
  = dict [("title", VStr " Azrieli Center")].
Proof. reflexivity. Qed.

(** X8: when the coordinates label is followed by a string, the coordinates
    are the tokens of that string: words, in order, and none at all when
    the string is blank. *)
Theorem html_coordinates_are_the_tokens (html_object label : node) (s : string) :
  Soup.find_with_sibling HTMLGeoScraper.is_coordinates_label html_object
  = Some (label, Some (NavigableString s)) ->
  HTMLGeoScraper.get_geometry html_object
  = dict [("type", VStr "Point"); ("coordinates", strs (Str.split s))]
  /\ Forall (fun token => is_word token = true) (Str.split s)
  /\ (forallb Str.isspace (Str.to_list s) = true -> Str.split s = []).
Proof.
  intros Hfound. unfold HTMLGeoScraper.get_geometry. rewrite Hfound.
  split; [reflexivity|]. split; [apply split_words|].
  unfold Str.split. induction (Str.to_list s) as [|c l IH]; simpl.
  - reflexivity.
  - intros H. apply andb_true_iff in H as [-> H]. auto.
Qed.

Lemma html_coordinates_are_the_tokens_witness :
  HTMLGeoScraper.get_geometry blank_coordinates_page
  = dict [("type", VStr "Point"); ("coordinates", strs (Str.split "   "))]
  /\ Forall (fun token => is_word token = true) (Str.split "   ")
  /\ (forallb Str.isspace (Str.to_list "   ") = true -> Str.split "   " = []).
Proof.
  apply (html_coordinates_are_the_tokens blank_coordinates_page
           (Tag "b" ∅ [NavigableString "Coordinates:"])).
  reflexivity.
Defined.

(** X9: the description that is returned for a page with the container is its
    text without the white space at either end, and nothing else is cut. *)
Theorem html_description_is_trimmed (html_object container : node) :
  Soup.find (HTMLGeoScraper.is_div_with_id "place-description") html_object
  = Some container ->
  exists description before after,
    HTMLGeoScraper.get_description html_object
    = dict [("description", VStr description)]
    /\ Str.to_list (Soup.get_text container)
       = before ++ Str.to_list description ++ after
    /\ forallb Str.isspace before = true
    /\ forallb Str.isspace after = true
    /\ trimmed description.
Proof.
  intros Hfound. unfold HTMLGeoScraper.get_description. rewrite Hfound.
  destruct (strip_spec (Soup.get_text container))
    as (before & after & Hparts & Hb & Ha & Ht).
  exists (Str.strip (Soup.get_text container)), before, after. auto.
Qed.

Lemma html_description_is_trimmed_witness :
  exists description before after,
    HTMLGeoScraper.get_description full_page
    = dict [("description", VStr description)]
    /\ Str.to_list "  A shopping mall. "
       = before ++ Str.to_list description ++ after
    /\ forallb Str.isspace before = true
    /\ forallb Str.isspace after = true
    /\ trimmed description.
Proof.
  apply (html_description_is_trimmed full_page
           (Tag "div" {["id" := "place-description"]}
              [NavigableString "  A shopping mall. "])).
  reflexivity.
Defined.

(** *** The feature below its three keys *)

Lemma keys_dict2 k1 k2 v1 v2 :
  keys (dict [(k1, v1); (k2, v2)]) = {[k1; k2]}.
Proof.
  unfold dict, keys. simpl. rewrite !dom_insert_L, dom_empty_L. set_solver.
Qed.

Lemma keys_dict4 k1 k2 k3 k4 v1 v2 v3 v4 :
  keys (dict [(k1, v1); (k2, v2); (k3, v3); (k4, v4)]) = {[k1; k2; k3; k4]}.
Proof.
  unfold dict, keys. simpl. rewrite !dom_insert_L, dom_empty_L. set_solver.
Qed.

(** X10: whenever a scraper returns a feature, its geometry is a dictionary with
    exactly the keys [type] and [coordinates], the type being [Point] for
    the HTML scraper and [polygon] for the API scraper, and its properties
    are a dictionary with exactly the keys [title], [location],
    [description] and [nearestPlaces]. *)
Theorem feature_geometry_and_properties_keys
    (bs : string -> SoupStrainer -> node) (scraper : GeoScraper) (v : value) :
  parse_point_to_geoJSON bs scraper = Return v ->
  exists geometry properties,
    get "geometry" v = Some geometry
    /\ keys geometry = {["type"; "coordinates"]}
    /\ get "type" geometry = Some (VStr (geometry_kind scraper))
    /\ get "properties" v = Some properties
    /\ keys properties
       = {["title"; "location"; "description"; "nearestPlaces"]}.
Proof.
  destruct scraper as [self|self]; simpl.
  - unfold HTMLGeoScraper.parse_point_to_geoJSON.
    intros H. apply bind_Return_inv in H as (props & Hprops & [= <-]).
    unfold HTMLGeoScraper.get_properties in Hprops.
    apply bind_Return_inv in Hprops as (loc & _ & Hprops).
    apply bind_Return_inv in Hprops as (near & _ & [= <-]).
    eexists _, _. split; [reflexivity|].
    split; [apply keys_dict2|]. split; [apply get_dict_head|].
    split; [reflexivity | apply keys_dict4].
  - intros [= <-]. eexists _, _. split; [reflexivity|].
    split; [apply keys_dict2|]. split; [apply get_dict_head|].
    split; [reflexivity | apply keys_dict4].
Qed.

Lemma feature_geometry_and_properties_keys_witness :
  exists geometry properties,
    get "geometry" (APIGeoScraper.parse_point_to_geoJSON park_x)
    = Some geometry
    /\ keys geometry = {["type"; "coordinates"]}
    /\ get "type" geometry = Some (VStr "polygon")
    /\ get "properties" (APIGeoScraper.parse_point_to_geoJSON park_x)
       = Some properties
    /\ keys properties
       = {["title"; "location"; "description"; "nearestPlaces"]}.
Proof.
  apply (feature_geometry_and_properties_keys (serve sparse_page)
           (OfAPI park_x)).
  reflexivity.
Defined.

(** *** The link collector on any answer *)


(** *** [__call__]: what reaches the two sinks *)




(** X13: A failure before the write leaves both sinks without the record: when
    the page cannot be parsed the world is as before, and when [dumps]
    refuses the feature the output file has been opened (it exists, with
    the content it had, empty if it is new) but nothing is written to it
    and nothing is inserted. *)
Theorem html_call_failure_writes_no_record
    (bs : string -> SoupStrainer -> node) (dumps : value -> result string)
    (self : HTMLGeoScraper.t) (conn db coll out : string) (w : world) :
  (forall e,
     HTMLGeoScraper.parse_point_to_geoJSON bs self = Raise e ->
     HTMLGeoScraper.__call__ bs dumps self conn db coll out w = (Raise e, w))
  /\ (forall geo_json e,
      HTMLGeoScraper.parse_point_to_geoJSON bs self = Return geo_json ->
      dumps geo_json = Raise e ->
      exists w',
        HTMLGeoScraper.__call__ bs dumps self conn db coll out w = (Raise e, w')
        /\ files w' !! out = Some (default EmptyString (files w !! out))
        /\ mongo w' = mongo w).
Proof.
  unfold HTMLGeoScraper.__call__. split.
  - intros e ->. reflexivity.
  - intros geo e -> ->. eexists. split; [reflexivity|].
    simpl. rewrite lookup_insert_eq. auto.
Qed.

Lemma html_call_failure_writes_no_record_witness :
  HTMLGeoScraper.__call__ (serve short_address_page) dumps_stub fetched
    "mongodb://db" "geo" "Israel" "out.json" busy
  = (Raise IndexError, busy)
  /\ exists w',
       HTMLGeoScraper.__call__ (serve tag_coordinates_page) dumps_stub fetched
         "mongodb://db" "geo" "Israel" "out.json" busy
       = (Raise TypeError, w')
       /\ files w' !! "out.json" = Some EmptyString
       /\ mongo w' = mongo busy.
Proof.
  split.
  - apply (proj1 (html_call_failure_writes_no_record (serve short_address_page)
                    dumps_stub fetched _ _ _ _ busy)).
    reflexivity.
  - refine (proj2 (html_call_failure_writes_no_record
                     (serve tag_coordinates_page) dumps_stub fetched
                     "mongodb://db" "geo" "Israel" "out.json" busy)
              _ TypeError eq_refl _).
    reflexivity.
Defined.







(** *** [utilities/mongo.py] *)

Lemma elem_of_list_collection_names conn db name w :
  name ∈ list_collection_names conn db w
  <-> is_Some (mongo w !! (conn, db, name)).
Proof.
  unfold list_collection_names. rewrite list_elem_of_omap. split.
  - intros ([[[c d] n] docs] & Hin & Hf).
    apply elem_of_map_to_list in Hin. case_bool_decide as Hcd; [|discriminate].
    destruct Hcd as [-> ->]. injection Hf as ->. eauto.
  - intros [docs Hdocs]. exists (conn, db, name, docs). split.
    + apply elem_of_map_to_list. exact Hdocs.
    + rewrite bool_decide_eq_true_2; auto.
Qed.

Lemma is_collection_true conn db name w :
  is_collection conn db name w = true
  <-> is_Some (mongo w !! (conn, db, name)).
Proof.
  unfold is_collection. rewrite <- elem_of_list_collection_names.
  case_bool_decide; split; auto; discriminate.
Qed.

(** X17: after a call that succeeded, [is_collection] finds the collection the
    feature went to, whichever scraper wrote it and whether or not the
    collection was there before; for any other collection it answers as
    it did before the call. *)
Theorem stored_collection_is_found
    (bs : string -> SoupStrainer -> node) (dumps : value -> result string)
    (scraper : GeoScraper) (conn db coll out : string) (w : world) :
  fst (__call__ bs dumps scraper conn db coll out w) = Return () ->
  let w' := snd (__call__ bs dumps scraper conn db coll out w) in
  is_collection conn db coll w' = true
  /\ forall conn' db' coll',
       (conn', db', coll') <> (conn, db, coll) ->
       is_collection conn' db' coll' w' = is_collection conn' db' coll' w.
Proof.
  intros Hrun w'.
  assert (Hstore : mongo w' !! (conn, db, coll)
                   = Some (default [] (mongo w !! (conn, db, coll))
                           ++ match parse_point_to_geoJSON bs scraper with
                              | Return geo => [geo]
                              | Raise _ => []
                              end)
                   /\ forall target, target <> (conn, db, coll) ->
                        mongo w' !! target = mongo w !! target).
  { subst w'. revert Hrun. destruct scraper as [self|self]; simpl.
    - unfold HTMLGeoScraper.__call__.
      destruct (HTMLGeoScraper.parse_point_to_geoJSON bs self) as [geo|e];
        [|discriminate].
      destruct (dumps geo) as [line|e]; [|discriminate].
      intros _. simpl. unfold db_connect. rewrite lookup_insert_eq.
      split; [reflexivity|]. intros target Ht.
      rewrite lookup_insert_ne by congruence. reflexivity.
    - unfold APIGeoScraper.__call__.
      destruct (dumps _) as [line|e]; [|discriminate].
      intros _. simpl. unfold db_connect. rewrite lookup_insert_eq.
      split; [reflexivity|]. intros target Ht.
      rewrite lookup_insert_ne by congruence. reflexivity. }
  destruct Hstore as [Hhere Hothers]. split.
  - apply is_collection_true. rewrite Hhere. eauto.
  - intros conn' db' coll' Hne.
    apply eq_true_iff_eq. rewrite !is_collection_true, (Hothers _ Hne).
    reflexivity.
Qed.

Lemma stored_collection_is_found_witness :
  let w' := snd (__call__ (serve sparse_page) dumps_stub (OfHTML fetched)
                   "mongodb://db" "geo" "Israel" "out.json" busy) in
  is_collection "mongodb://db" "geo" "Israel" busy = false
  /\ is_collection "mongodb://db" "geo" "Israel" w' = true
  /\ is_collection "mongodb://db" "geo" "Jordan" w' = false.
Proof.
  intros w'.
  destruct (stored_collection_is_found (serve sparse_page) dumps_stub
              (OfHTML fetched) "mongodb://db" "geo" "Israel" "out.json" busy
              eq_refl) as [Hhere Hothers].
  split; [reflexivity|]. split; [exact Hhere|].
  fold w' in Hothers. rewrite Hothers; [reflexivity | discriminate].
Defined.

(** X18: [create_ttl_in_collections] stops at the first collection whose
    [create_index] raises: the collections before it keep the index they
    were given, the error propagates, and the collections after it are
    never reached, whatever they are. *)
Theorem create_ttl_stops_at_first_failure
    (Collection Server : Type)
    (create_index : Collection -> string -> Z -> Server -> result unit * Server)
    (index_name : string) (ttl : Z)
    (before : list Collection) (failing : Collection) (after : list Collection)
    (s s1 s2 : Server) (e : exn) :
  create_ttl_in_collections Collection Server create_index index_name ttl
    before s = (Return (), s1) ->
  create_index failing index_name ttl s1 = (Raise e, s2) ->
  create_ttl_in_collections Collection Server create_index index_name ttl
    (before ++ failing :: after) s = (Raise e, s2).
Proof.
  revert s. induction before as [|c before IH]; intros s Hbefore Hfail; simpl.
  - injection Hbefore as ->. rewrite Hfail. reflexivity.
  - simpl in Hbefore.
    destruct (create_index c index_name ttl s) as [[[]|e'] s'];
      [|discriminate].
    apply IH; assumption.
Qed.

Lemma create_ttl_stops_at_first_failure_witness :
  create_ttl_in_collections string (gmap (string * string) Z) create_index_once
    "createdAt" 3600 (["a"] ++ "b" :: ["c"]) indexed_b
  = (Raise (Exception "IndexOptionsConflict"),
     <[("a", "createdAt") := 3600%Z]> indexed_b).
Proof.
  apply (create_ttl_stops_at_first_failure string (gmap (string * string) Z)
           create_index_once "createdAt" 3600 ["a"] "b" ["c"] indexed_b
           (<[("a", "createdAt") := 3600%Z]> indexed_b)); reflexivity.
Defined.

(** *** [HTMLGeoScraper.parse_point_to_geoJSON]: the errors *)






